(** * The resilient API client of the OKR tree front end

    A shallow embedding of [src/lib/api.js] (the axios client, its
    interceptors, the retry helper and the [api] object) together with the
    places of the UI that touch the persisted credential ([checkAuth] and
    [handleLogin] in the two pages, [handleLogout] in [Header.js]).

    Conventions of the embedding.
    - A JavaScript value is a term of [value]; an object literal is a finite
      map from property names to values, so a property that was never set
      and has no entry reads as [undefined], exactly like [obj.key].
    - An [async] function is a state-and-exception computation over a
      [World]: the browser storage and the trace of what left the client
      (requests dispatched, timers awaited), in program order.  [await] is
      sequencing; a rejected promise is [Throw].
    - The network and the backend are an oracle [transport]: given what has
      happened so far and the request configuration it answers with a
      response or a rejection.  Nothing is assumed about it.
    - [console.log] and [console.error] have no effect on any value or on
      the storage and are left out. *)

From Stdlib Require Import ZArith.
From stdpp Require Import gmap strings list.

Set Warnings "-register-all".
Open Scope Z_scope.

(** ** JavaScript values *)

Module JS.

Inductive value :=
| VUndefined
| VNull
| VBool (b : bool)
| VNum (z : Z)
| VNaN
| VStr (s : string)
| VArr (l : list value)
| VObj (o : gmap string value).

(** [ToBoolean]: what [if (v)], [!v], [a || b] and [c ? a : b] test.
    Numbers are the integer-valued ones and [NaN]; every other number is
    truthy as well. *)
Definition truthy (v : value) : bool :=
  match v with
  | VUndefined | VNull | VNaN => false
  | VBool b => b
  | VNum z => negb (z =? 0)
  | VStr s => negb (bool_decide (s = ""))
  | VArr _ | VObj _ => true
  end.

(** [a || b] *)
Definition or_else (a b : value) : value := if truthy a then a else b.

(** [v !== 'literal'] *)
Definition strict_ne_str (v : value) (lit : string) : bool :=
  match v with
  | VStr s => negb (bool_decide (s = lit))
  | _ => true
  end.

(** [o.k] on an object *)
Definition get (o : gmap string value) (k : string) : value :=
  default VUndefined (o !! k).

End JS.
Export JS.

(** ** Responses, errors, and what a [throw] carries *)

Record response := { status : Z; data : value }.

(** An error object: [error.code], [error.message], [error.response]. *)
Record error := {
  name : string;
  code : value;
  message : string;
  err_response : option response
}.

Inductive thrown :=
| ThrowUndefined
| ThrowError (e : error).

Definition TypeError (msg : string) : thrown :=
  ThrowError {| name := "TypeError"; code := VUndefined; message := msg; err_response := None |}.

Definition ReferenceError (msg : string) : thrown :=
  ThrowError {| name := "ReferenceError"; code := VUndefined; message := msg; err_response := None |}.

(** The rejections of the axios library, by the code it sets on them:
    [ERR_NETWORK] when the server cannot be reached, [ECONNABORTED] when
    the timeout expires, and for a response outside 2xx [ERR_BAD_REQUEST]
    (4xx), [ERR_BAD_RESPONSE] (5xx) or no code. *)
Definition AxiosError (c : string) (msg : string) (r : option response) : error :=
  {| name := "AxiosError"; code := VStr c; message := msg; err_response := r |}.

Definition network_error : error := AxiosError "ERR_NETWORK" "Network Error" None.

Definition timeout_error : error := AxiosError "ECONNABORTED" "timeout of 15000ms exceeded" None.

Definition http_status_error (r : response) : error :=
  {| name := "AxiosError";
     code := if (400 <=? status r) && (status r <? 500) then VStr "ERR_BAD_REQUEST"
             else if (500 <=? status r) && (status r <? 600) then VStr "ERR_BAD_RESPONSE"
             else VUndefined;
     message := "Request failed";
     err_response := Some r |}.

(** An error raised while the request is set up: no code, no response. *)
Definition setup_error (msg : string) : error :=
  {| name := "Error"; code := VUndefined; message := msg; err_response := None |}.

Inductive result (A : Type) :=
| Ok (a : A)
| Throw (x : thrown).
Arguments Ok {A} a.
Arguments Throw {A} x.

#[global] Instance result_ret : MRet result := λ A a, Ok a.

#[global] Instance result_bind : MBind result := λ A B f r,
  match r with
  | Ok a => f a
  | Throw x => Throw x
  end.

(** [v.k] for the two property names the client reads off list entries
    ([user_id], [is_primary]): a [TypeError] on [undefined] and [null], the
    stored value on an object, [undefined] on every other value. *)
Definition read_property (v : value) (k : string) : result value :=
  match v with
  | VUndefined | VNull => Throw (TypeError ("Cannot read properties of undefined (reading '" +:+ k +:+ "')"))
  | VObj o => Ok (get o k)
  | _ => Ok VUndefined
  end.

(** [v?.k] *)
Definition optional_chain (v : value) (k : string) : result value :=
  match v with
  | VUndefined | VNull => Ok VUndefined
  | _ => read_property v k
  end.

Fixpoint array_map (f : value → result value) (l : list value) : result (list value) :=
  match l with
  | [] => Ok []
  | x :: l' => y ← f x; ys ← array_map f l'; mret (y :: ys)
  end.

Fixpoint array_find (p : value → result value) (l : list value) : result value :=
  match l with
  | [] => Ok VUndefined
  | x :: l' => b ← p x; if truthy b then Ok x else array_find p l'
  end.

(** [v.map(f)]: only an array has the method. *)
Definition method_map (v : value) (f : value → result value) : result value :=
  match v with
  | VArr l => ys ← array_map f l; mret (VArr ys)
  | _ => Throw (TypeError "map is not a function")
  end.

(** [v.find(p)] *)
Definition method_find (v : value) (p : value → result value) : result value :=
  match v with
  | VArr l => array_find p l
  | _ => Throw (TypeError "find is not a function")
  end.

(** ** The world *)

Inductive method := GET | POST | PUT | DELETE.

Record config := {
  baseURL : string;
  url : string;
  http_method : method;
  headers : gmap string string;
  timeout : Z;
  body : value
}.

Inductive event :=
| ESend (c : config)
| ESleep (ms : Z).

(** [window] is [None] where [typeof window === 'undefined'] (rendering on
    the server); in the browser it holds [localStorage]. *)
Record World := {
  window : option (gmap string string);
  trace : list event
}.

Definition M (A : Type) : Type := World → result A * World.

#[global] Instance M_ret : MRet M := λ A a w, (Ok a, w).

#[global] Instance M_bind : MBind M := λ A B f m w,
  match m w with
  | (Ok a, w') => f a w'
  | (Throw x, w') => (Throw x, w')
  end.

Definition throw {A} (x : thrown) : M A := λ w, (Throw x, w).

Definition lift_result {A} (r : result A) : M A := λ w, (r, w).

(** [try { body } catch (error) { handler(error) }] *)
Definition try_catch {A} (body : M A) (handler : thrown → M A) : M A := λ w,
  match body w with
  | (Ok a, w') => (Ok a, w')
  | (Throw x, w') => handler x w'
  end.

Definition emit (e : event) : M unit := λ w,
  (Ok (), {| window := window w; trace := trace w ++ [e] |}).

(** [await new Promise(resolve => setTimeout(resolve, ms))] *)
Definition sleep (ms : Z) : M unit := emit (ESleep ms).

(** The global [localStorage] outside a [typeof window] test: a
    [ReferenceError] where there is no window. *)
Definition with_localStorage {A} (f : gmap string string → A * gmap string string) : M A := λ w,
  match window w with
  | None => (Throw (ReferenceError "localStorage is not defined"), w)
  | Some ls => let '(a, ls') := f ls in (Ok a, {| window := Some ls'; trace := trace w |})
  end.

(** [localStorage.getItem(k)]: the stored string, or [null]. *)
Definition getItem (ls : gmap string string) (k : string) : value :=
  match ls !! k with
  | Some s => VStr s
  | None => VNull
  end.

Definition localStorage_getItem (k : string) : M value :=
  with_localStorage (λ ls, (getItem ls k, ls)).

Definition localStorage_setItem (k v : string) : M unit :=
  with_localStorage (λ ls, ((), <[k := v]> ls)).

Definition localStorage_removeItem (k : string) : M unit :=
  with_localStorage (λ ls, ((), delete k ls)).

(** The persisted credential: the [auth_token] slot of [localStorage]. *)
Definition auth_token (w : World) : option string :=
  ls ← window w; ls !! "auth_token".

(** The requests dispatched and the delays awaited, read off a trace. *)
Definition sent (evs : list event) : list config :=
  omap (λ e, match e with ESend c => Some c | ESleep _ => None end) evs.

Definition delays (evs : list event) : list Z :=
  omap (λ e, match e with ESleep ms => Some ms | ESend _ => None end) evs.

(** What a run added to the trace. *)
Definition new_events (w w' : World) : list event :=
  drop (length (trace w)) (trace w').

(** A browser with the given storage and nothing sent yet. *)
Definition browser (ls : gmap string string) : World :=
  {| window := Some ls; trace := [] |}.

(** ** Pages

    A component of the UI runs over a page: the world, and the messages it
    has shown with [alert], oldest first. *)
Record Page := { world : World; alerts : list string }.

Definition UI (A : Type) : Type := Page → result A * Page.

#[global] Instance UI_ret : MRet UI := λ A a p, (Ok a, p).

#[global] Instance UI_bind : MBind UI := λ A B f m p,
  match m p with
  | (Ok a, p') => f a p'
  | (Throw x, p') => (Throw x, p')
  end.

Definition ui_try_catch {A} (body : UI A) (handler : thrown → UI A) : UI A := λ p,
  match body p with
  | (Ok a, p') => (Ok a, p')
  | (Throw x, p') => handler x p'
  end.

(** A call of the client from a component. *)
Definition ui_lift {A} (m : M A) : UI A := λ p,
  let '(r, w') := m (world p) in (r, {| world := w'; alerts := alerts p |}).

Definition ui_lift_result {A} (r : result A) : UI A := λ p, (r, p).

(** [alert(msg)] *)
Definition alert (msg : string) : UI unit := λ p,
  (Ok (), {| world := world p; alerts := alerts p ++ [msg] |}).

(** A page freshly loaded in a browser with the given storage. *)
Definition fresh_page (ls : gmap string string) : Page :=
  {| world := browser ls; alerts := [] |}.

(** Answers the first request with a network failure, every later one with
    200 and an object carrying [okr_id = 9]. *)
Definition recovering_transport (history : list event) (c : config) : result response :=
  match length (sent history) with
  | 0%nat => Throw (ThrowError network_error)
  | _ => Ok {| status := 200; data := VObj {[ "okr_id" := VNum 9 ]} |}
  end.

(** Answers every request with 201 and an object carrying [okr_id = 9]. *)
Definition created_transport (history : list event) (c : config) : result response :=
  Ok {| status := 201; data := VObj {[ "okr_id" := VNum 9 ]} |}.

(** ** Backends to run the client against *)

(** Unreachable on the first and third request, timing out on the second;
    each rejection is told apart by its message. *)
Definition flaky_transport (history : list event) (c : config) : result response :=
  match length (sent history) with
  | 0%nat => Throw (ThrowError (AxiosError "ERR_NETWORK" "first" None))
  | 1%nat => Throw (ThrowError (AxiosError "ECONNABORTED" "second" None))
  | _ => Throw (ThrowError (AxiosError "ERR_NETWORK" "third" None))
  end.

(** Answers every request with 404. *)
Definition not_found_transport (history : list event) (c : config) : result response :=
  Throw (ThrowError (http_status_error {| status := 404; data := VStr "Not found" |})).

(** Answers every request with 200 and an empty list. *)
Definition ok_transport (history : list event) (c : config) : result response :=
  Ok {| status := 200; data := VArr [] |}.

(** ** The axios instance and the retry helper *)

Section Client.

(** [process.env.NEXT_PUBLIC_API_URL], read once when the module loads. *)
Variable NEXT_PUBLIC_API_URL : option string.

(** The network and the backend behind it. *)
Variable transport : list event → config → result response.

Definition API_BASE_URL : string :=
  match NEXT_PUBLIC_API_URL with
  | Some s => if truthy (VStr s) then s else "http://localhost:8000"
  | None => "http://localhost:8000"
  end.

(** [axios.create({ baseURL, headers, timeout })] merged with the verb, the
    path and the body of one call. *)
Definition create_config (m : method) (path : string) (d : value) : config :=
  {| baseURL := API_BASE_URL;
     url := path;
     http_method := m;
     headers := {[ "Content-Type" := "application/json" ]};
     timeout := 15000;
     body := d |}.

Definition set_header (c : config) (h v : string) : config :=
  {| baseURL := baseURL c; url := url c; http_method := http_method c;
     headers := <[h := v]> (headers c); timeout := timeout c; body := body c |}.

(** [apiClient.interceptors.request.use((config) => ...)] *)
Definition request_interceptor (c : config) : M config := λ w,
  match window w with
  | Some ls =>
    match getItem ls "auth_token" with
    | VStr token =>
      if truthy (VStr token)
      then (Ok (set_header c "Authorization" ("Bearer " +:+ token)), w)
      else (Ok c, w)
    | _ => (Ok c, w)
    end
  | None => (Ok c, w)
  end.

(** [apiClient.interceptors.response.use(...)]: the first handler passes
    the response on; the second reads [error.response] to choose what to
    log and rejects with the error it was given. *)
Definition response_interceptor (r : result response) : result response :=
  match r with
  | Ok resp => Ok resp
  | Throw ThrowUndefined =>
    Throw (TypeError "Cannot read properties of undefined (reading 'response')")
  | Throw (ThrowError e) => Throw (ThrowError e)
  end.

Definition dispatch (c : config) : M response := λ w,
  (response_interceptor (transport (trace w) c),
   {| window := window w; trace := trace w ++ [ESend c] |}).

Definition apiClient_request (m : method) (path : string) (d : value) : M response :=
  c ← request_interceptor (create_config m path d); dispatch c.

Definition apiClient_get (path : string) : M response := apiClient_request GET path VUndefined.

Definition apiClient_delete (path : string) : M response := apiClient_request DELETE path VUndefined.

Definition apiClient_post (path : string) (d : value) : M response := apiClient_request POST path d.

Definition apiClient_put (path : string) (d : value) : M response := apiClient_request PUT path d.

(** The test of the [catch] block of [apiCallWithRetry]:
    [!error.code || (error.code !== 'ERR_NETWORK' && error.code !== 'ECONNABORTED')]. *)
Definition not_retried (e : error) : bool :=
  negb (truthy (code e))
  || (strict_ne_str (code e) "ERR_NETWORK" && strict_ne_str (code e) "ECONNABORTED").

(** The [for] loop of [apiCallWithRetry], with [remaining = retryCount - attempt]. *)
Fixpoint retry_loop {A} (apiCall : M A) (initialDelayMs : Z)
    (remaining attempt : nat) (lastError : thrown) : M A :=
  match remaining with
  | O => throw lastError
  | S remaining' =>
    try_catch apiCall (λ err,
      match err with
      | ThrowUndefined =>
        throw (TypeError "Cannot read properties of undefined (reading 'code')")
      | ThrowError e =>
        if not_retried e then throw err
        else
          let delayMs := initialDelayMs * 2 ^ Z.of_nat attempt in
          sleep delayMs;;
          retry_loop apiCall initialDelayMs remaining' (S attempt) err
      end)
  end.

Definition apiCallWithRetry {A} (apiCall : M A) (retryCount : nat) (initialDelayMs : Z) : M A :=
  retry_loop apiCall initialDelayMs retryCount 0 ThrowUndefined.

(** The default arguments, [retryCount = 3] and [initialDelayMs = 1000];
    every call site of the helper uses them. *)
Definition apiCallWithRetry_default {A} (apiCall : M A) : M A :=
  apiCallWithRetry apiCall 3 1000.

(** ** The [api] object *)

(** [try { const response = await call; return response.data; }
     catch (error) { console.error(...); throw error; }] *)
Definition returning_data (call : M response) : M value :=
  try_catch (resp ← call; mret (data resp)) (λ err, throw err).

Definition checkBackendConnection : M value :=
  try_catch
    (resp ← apiClient_get "/api/"; mret (VBool true))
    (λ err, mret (VBool false)).

Definition login (credentials : value) : M value :=
  try_catch
    (resp ← apiCallWithRetry_default (apiClient_post "/api/token/" credentials);
     mret (data resp))
    (λ err, throw err).

Definition getDepartments : M value :=
  try_catch
    (resp ← apiCallWithRetry_default (apiClient_get "/api/departments/");
     mret (or_else (data resp) (VArr [])))
    (λ err, mret (VArr [])).

Definition getBusinessUnits : M value :=
  returning_data (apiClient_get "/api/business-units/").

Definition getBusinessUnit (businessUnitId : string) : M value :=
  returning_data (apiClient_get ("/api/business-units/" +:+ businessUnitId +:+ "/")).

Definition createBusinessUnit (businessUnitData : value) : M value :=
  returning_data (apiClient_post "/api/business-units/" businessUnitData).

Definition updateBusinessUnit (businessUnitId : string) (businessUnitData : value) : M value :=
  returning_data (apiClient_put ("/api/business-units/" +:+ businessUnitId +:+ "/") businessUnitData).

Definition deleteBusinessUnit (businessUnitId : string) : M value :=
  returning_data (apiClient_delete ("/api/business-units/" +:+ businessUnitId +:+ "/")).

Definition getOKRBusinessUnits (okrId : string) : M value :=
  returning_data (apiClient_get ("/api/okrs/" +:+ okrId +:+ "/business_units/")).

Definition assignBusinessUnitsToOKR (okrId : string) (businessUnitIds : value) : M value :=
  returning_data (apiClient_post ("/api/okrs/" +:+ okrId +:+ "/assign_business_units/") businessUnitIds).

Definition getUsers : M value :=
  try_catch
    (resp ← apiCallWithRetry_default (apiClient_get "/api/users/");
     mret (or_else (data resp) (VArr [])))
    (λ err, mret (VArr [])).

Definition getUser (userId : string) : M value :=
  returning_data (apiClient_get ("/api/users/" +:+ userId +:+ "/")).

Definition getOKRs : M value :=
  returning_data (apiClient_get "/api/okrs/").

Definition getOKR (okrId : string) : M value :=
  returning_data (apiClient_get ("/api/okrs/" +:+ okrId +:+ "/")).

(** The object literal and the [delete] of [createOKR]. *)
Definition createOKR_transform (okrData : gmap string value) : gmap string value :=
  let transformedData :=
    <["business_unit_ids" := or_else (get okrData "business_unit_ids") (VArr [])]>
    (<["primary_user_id" := or_else (get okrData "primary_user_id") VNull]>
    (<["assigned_user_ids" := or_else (get okrData "assigned_user_ids") (VArr [])]>
    (<["name" := get okrData "title"]> okrData))) in
  if truthy (get transformedData "title")
  then delete "title" transformedData
  else transformedData.

Definition createOKR (okrData : gmap string value) : M value :=
  try_catch
    (let transformedData := createOKR_transform okrData in
     resp ← apiClient_post "/api/okrs/" (VObj transformedData);
     mret (data resp))
    (λ err, throw err).

(** The initialiser of [assigned_user_ids] in the object literal of
    [updateOKR]. *)
Definition updateOKR_assigned_user_ids (okrData : gmap string value) : result value :=
  if truthy (get okrData "assigned_users")
  then method_map (get okrData "assigned_users") (λ user, read_property user "user_id")
  else Ok (VArr []).

(** The initialiser of [primary_user_id]. *)
Definition updateOKR_primary_user_id (okrData : gmap string value) : result value :=
  if truthy (get okrData "assigned_users")
  then found ← method_find (get okrData "assigned_users") (λ user, read_property user "is_primary");
       optional_chain found "user_id"
  else Ok VNull.

(** The object literal and the two [delete]s of [updateOKR]. *)
Definition updateOKR_transform (okrData : gmap string value) : result (gmap string value) :=
  assigned_user_ids ← updateOKR_assigned_user_ids okrData;
  primary_user_id ← updateOKR_primary_user_id okrData;
  let business_unit_ids :=
    or_else (or_else (get okrData "business_unit_ids") (get okrData "business_units")) (VArr []) in
  let transformedData :=
    <["business_unit_ids" := business_unit_ids]>
    (<["primary_user_id" := primary_user_id]>
    (<["assigned_user_ids" := assigned_user_ids]> okrData)) in
  let transformedData :=
    if truthy (get transformedData "assigned_users")
    then delete "assigned_users" transformedData
    else transformedData in
  let transformedData :=
    if truthy (get transformedData "business_units") && truthy (get transformedData "business_unit_ids")
    then delete "business_units" transformedData
    else transformedData in
  mret transformedData.

Definition updateOKR (okrId : string) (okrData : gmap string value) : M value :=
  try_catch
    (transformedData ← lift_result (updateOKR_transform okrData);
     resp ← apiClient_put ("/api/okrs/" +:+ okrId +:+ "/") (VObj transformedData);
     mret (data resp))
    (λ err, throw err).

Definition deleteOKR (okrId : string) : M value :=
  returning_data (apiClient_delete ("/api/okrs/" +:+ okrId +:+ "/")).

Definition getChildOKRs (parentOkrId : string) : M value :=
  returning_data (apiClient_get ("/api/okrs/?parent_okr=" +:+ parentOkrId)).

Definition getOKRAssignedUsers (okrId : string) : M value :=
  returning_data (apiClient_get ("/api/okrs/" +:+ okrId +:+ "/assigned_users/")).

Definition addUserToOKR (okrId : string) (userData : value) : M value :=
  returning_data (apiClient_post ("/api/okrs/" +:+ okrId +:+ "/assign_user/") userData).

Definition removeUserFromOKR (okrId userId : string) : M value :=
  returning_data (apiClient_delete ("/api/okrs/" +:+ okrId +:+ "/remove_user/" +:+ userId +:+ "/")).

Definition setPrimaryUserForOKR (okrId : string) (userId : value) : M value :=
  returning_data
    (apiClient_post ("/api/okrs/" +:+ okrId +:+ "/set_primary_user/") (VObj {[ "user_id" := userId ]})).

Definition getTasks : M value :=
  returning_data (apiClient_get "/api/tasks/").

Definition getTask (taskId : string) : M value :=
  returning_data (apiClient_get ("/api/tasks/" +:+ taskId +:+ "/")).

Definition createTask (taskData : value) : M value :=
  returning_data (apiClient_post "/api/tasks/" taskData).

Definition updateTask (taskId : string) (taskData : value) : M value :=
  returning_data (apiClient_put ("/api/tasks/" +:+ taskId +:+ "/") taskData).

Definition deleteTask (taskId : string) : M value :=
  returning_data (apiClient_delete ("/api/tasks/" +:+ taskId +:+ "/")).

Definition getOKRTasks (okrId : string) : M value :=
  returning_data (apiClient_get ("/api/tasks/?linked_to_okr=" +:+ okrId)).

Definition getUserOKRs (userId : string) : M value :=
  returning_data (apiClient_get ("/api/okrs/user/" +:+ userId +:+ "/")).

Definition getUserTasks (userId : string) : M value :=
  returning_data (apiClient_get ("/api/tasks/?assigned_to=" +:+ userId)).

Definition getTaskChallenges : M value :=
  returning_data (apiClient_get "/api/task-challenges/").

Definition getTaskChallenge (challengeId : string) : M value :=
  returning_data (apiClient_get ("/api/task-challenges/" +:+ challengeId +:+ "/")).

Definition createTaskChallenge (challengeData : value) : M value :=
  returning_data (apiClient_post "/api/task-challenges/" challengeData).

Definition updateTaskChallenge (challengeId : string) (challengeData : value) : M value :=
  returning_data (apiClient_put ("/api/task-challenges/" +:+ challengeId +:+ "/") challengeData).

Definition deleteTaskChallenge (challengeId : string) : M value :=
  returning_data (apiClient_delete ("/api/task-challenges/" +:+ challengeId +:+ "/")).

Definition getTaskChallengesByTask (taskId : string) : M value :=
  returning_data (apiClient_get ("/api/task-challenges/by_task/?task_id=" +:+ taskId)).

(** Every operation of the [api] object with its arguments, and the call it
    stands for. *)
Inductive Op :=
| CheckBackendConnection
| Login (credentials : value)
| GetDepartments
| GetBusinessUnits
| GetBusinessUnit (businessUnitId : string)
| CreateBusinessUnit (businessUnitData : value)
| UpdateBusinessUnit (businessUnitId : string) (businessUnitData : value)
| DeleteBusinessUnit (businessUnitId : string)
| GetOKRBusinessUnits (okrId : string)
| AssignBusinessUnitsToOKR (okrId : string) (businessUnitIds : value)
| GetUsers
| GetUser (userId : string)
| GetOKRs
| GetOKR (okrId : string)
| CreateOKR (okrData : gmap string value)
| UpdateOKR (okrId : string) (okrData : gmap string value)
| DeleteOKR (okrId : string)
| GetChildOKRs (parentOkrId : string)
| GetOKRAssignedUsers (okrId : string)
| AddUserToOKR (okrId : string) (userData : value)
| RemoveUserFromOKR (okrId userId : string)
| SetPrimaryUserForOKR (okrId : string) (userId : value)
| GetTasks
| GetTask (taskId : string)
| CreateTask (taskData : value)
| UpdateTask (taskId : string) (taskData : value)
| DeleteTask (taskId : string)
| GetOKRTasks (okrId : string)
| GetUserOKRs (userId : string)
| GetUserTasks (userId : string)
| GetTaskChallenges
| GetTaskChallenge (challengeId : string)
| CreateTaskChallenge (challengeData : value)
| UpdateTaskChallenge (challengeId : string) (challengeData : value)
| DeleteTaskChallenge (challengeId : string)
| GetTaskChallengesByTask (taskId : string).

Definition api (op : Op) : M value :=
  match op with
  | CheckBackendConnection => checkBackendConnection
  | Login credentials => login credentials
  | GetDepartments => getDepartments
  | GetBusinessUnits => getBusinessUnits
  | GetBusinessUnit i => getBusinessUnit i
  | CreateBusinessUnit d => createBusinessUnit d
  | UpdateBusinessUnit i d => updateBusinessUnit i d
  | DeleteBusinessUnit i => deleteBusinessUnit i
  | GetOKRBusinessUnits i => getOKRBusinessUnits i
  | AssignBusinessUnitsToOKR i d => assignBusinessUnitsToOKR i d
  | GetUsers => getUsers
  | GetUser i => getUser i
  | GetOKRs => getOKRs
  | GetOKR i => getOKR i
  | CreateOKR d => createOKR d
  | UpdateOKR i d => updateOKR i d
  | DeleteOKR i => deleteOKR i
  | GetChildOKRs i => getChildOKRs i
  | GetOKRAssignedUsers i => getOKRAssignedUsers i
  | AddUserToOKR i d => addUserToOKR i d
  | RemoveUserFromOKR i u => removeUserFromOKR i u
  | SetPrimaryUserForOKR i u => setPrimaryUserForOKR i u
  | GetTasks => getTasks
  | GetTask i => getTask i
  | CreateTask d => createTask d
  | UpdateTask i d => updateTask i d
  | DeleteTask i => deleteTask i
  | GetOKRTasks i => getOKRTasks i
  | GetUserOKRs i => getUserOKRs i
  | GetUserTasks i => getUserTasks i
  | GetTaskChallenges => getTaskChallenges
  | GetTaskChallenge i => getTaskChallenge i
  | CreateTaskChallenge d => createTaskChallenge d
  | UpdateTaskChallenge i d => updateTaskChallenge i d
  | DeleteTaskChallenge i => deleteTaskChallenge i
  | GetTaskChallengesByTask i => getTaskChallengesByTask i
  end.

(** ** The pages and the header

    The handlers also set component state ([setIsAuthenticated], [setUser],
    [setTasks], [setLoading]) and navigate; that state is local to the
    component and is not part of the [World]. *)

(** [fetchTasks] of the tasks page: the failure is caught and logged. *)
Definition fetchTasks : M unit :=
  try_catch (tasksData ← getTasks; mret ()) (λ err, mret ()).

(** [handleLogin] of the home page. *)
Definition Home_handleLogin (credentials : value) : M unit :=
  localStorage_setItem "auth_token" "mock_token".

(** [handleLogin] of the tasks page. *)
Definition TasksPage_handleLogin (credentials : value) : M unit :=
  localStorage_setItem "auth_token" "mock_token";;
  fetchTasks.

(** [checkAuth] of the home page. *)
Definition Home_checkAuth : M unit :=
  token ← localStorage_getItem "auth_token";
  mret ().

(** [checkAuth] of the tasks page. *)
Definition TasksPage_checkAuth : M unit :=
  token ← localStorage_getItem "auth_token";
  if truthy token then fetchTasks else mret ().

(** [handleLogout] of the header. *)
Definition handleLogout : M unit :=
  localStorage_removeItem "auth_token".

(** Everything in the application that reaches the storage or the client. *)
Inductive action :=
| ApiCall (op : Op)
| HomeLogin (credentials : value)
| TasksLogin (credentials : value)
| HomeCheckAuth
| TasksCheckAuth
| Logout.

Definition run_action (a : action) : M unit :=
  match a with
  | ApiCall op => try_catch (r ← api op; mret ()) (λ err, mret ())
  | HomeLogin c => Home_handleLogin c
  | TasksLogin c => TasksPage_handleLogin c
  | HomeCheckAuth => Home_checkAuth
  | TasksCheckAuth => TasksPage_checkAuth
  | Logout => handleLogout
  end.

(** A session: the actions one after the other, whatever each one's outcome. *)
Definition run_session (acts : list action) (w : World) : World :=
  foldl (λ w a, (run_action a w).2) w acts.

(** ** The node component: continuing an iteration *)

(** The object literal [newOKRData] of [handleContinueIteration]. *)
Definition newOKRData (data : gmap string value) : gmap string value :=
  {[ "name" := get data "name";
     "description" := get data "description";
     "parent_okr_id" := get data "parent_okr_id";
     "due_date" := VNull;
     "status" := VStr "Not Started";
     "progress_percent" := VNum 0;
     "assumptions" := get data "assumptions";
     "isMeasurable" := get data "isMeasurable";
     "previous_iteration_id" := get data "okr_id" ]}.

(** The callback of [assignedUsers.map(user => ({ okr_id: createdOKR.okr_id,
    user_id: user.user_id, is_primary: user.is_primary }))]. *)
Definition userAssignment (createdOKR user : value) : result value :=
  okr_id ← read_property createdOKR "okr_id";
  user_id ← read_property user "user_id";
  is_primary ← read_property user "is_primary";
  mret (VObj {[ "okr_id" := okr_id; "user_id" := user_id; "is_primary" := is_primary ]}).

(** [api.assignUserToOKR(assignment)]: the [api] object has no property of
    that name (the operation it exports is [addUserToOKR]), so this is a
    call of [undefined]. *)
Definition api_assignUserToOKR (assignment : value) : result value :=
  Throw (TypeError "api.assignUserToOKR is not a function").

(** [handleContinueIteration], for a node whose [assignedUsers] state is an
    array; [onContinueIteration] is the function stored in
    [data.onContinueIteration], if any. *)
Definition handleContinueIteration (data : gmap string value) (assignedUsers : list value)
    (onContinueIteration : option (value → UI unit)) : UI unit :=
  ui_try_catch
    (createdOKR ← ui_lift (createOKR (newOKRData data));
     (if 0 <? Z.of_nat (length assignedUsers)
      then
        userAssignments ← ui_lift_result (array_map (userAssignment createdOKR) assignedUsers);
        calls ← ui_lift_result (array_map api_assignUserToOKR userAssignments);
        mret ()
      else mret ());;
     alert "New iteration created successfully! Refresh to see changes.";;
     match onContinueIteration with
     | Some callback => callback createdOKR
     | None => mret ()
     end)
    (λ err, alert "Failed to create new iteration. Please try again.").

(** ** Predicates used in the statements *)

(** [c] is what the request interceptor makes of a configuration of the
    axios instance, in a world whose window is [win]. *)
Definition intercepted (win : option (gmap string string)) (c : config) : Prop :=
  ∃ m path d,
    (request_interceptor (create_config m path d) {| window := win; trace := [] |}).1 = Ok c.

(** A computation that leaves the window, and so the storage, as it found
    it, only appends to the trace, and sends nothing but intercepted
    configurations. *)
Definition client_only {A} (m : M A) : Prop :=
  ∀ w, window (m w).2 = window w
       ∧ ∃ evs, trace (m w).2 = trace w ++ evs ∧ Forall (intercepted (window w)) (sent evs).

(** Running [m] in [w] dispatches exactly one request, whose body is the
    object [out]. *)
Definition sends_payload {A} (m : M A) (w : World) (out : gmap string value) : Prop :=
  ∃ c, sent (new_events w (m w).2) = [c] ∧ body c = VObj out.

(** The two fields read off an entry of [assigned_users]. *)
Definition entry_user_id (entry : value) : value :=
  match entry with
  | VObj o => get o "user_id"
  | _ => VUndefined
  end.

Definition entry_is_primary (entry : value) : bool :=
  match entry with
  | VObj o => truthy (get o "is_primary")
  | _ => false
  end.

Definition is_object (v : value) : Prop := ∃ o, v = VObj o.

Definition is_login (a : action) : Prop :=
  match a with
  | HomeLogin _ | TasksLogin _ => True
  | _ => False
  end.

(** The delays of [j] consecutive retries, the first of them after attempt
    number [n]. *)
Definition backoff (delay : Z) (n j : nat) : list Z :=
  (λ i, delay * 2 ^ Z.of_nat i) <$> seq n j.

(** [j] attempts in a row, the first of them attempt number [n], that each
    reject with an error the helper retries, with the delay the helper
    awaits after each; [w'] is the world after the last delay. *)
Inductive transient_run {A} (apiCall : M A) (delay : Z) : nat → nat → World → World → Prop :=
| transient_run_nil n w : transient_run apiCall delay n 0 w w
| transient_run_cons n j w e w1 w' :
    apiCall w = (Throw (ThrowError e), w1) →
    not_retried e = false →
    transient_run apiCall delay (S n) j (sleep (delay * 2 ^ Z.of_nat n) w1).2 w' →
    transient_run apiCall delay n (S j) w w'.

(** A computation all of whose requests satisfy [P], by verb, path and body. *)
Definition only_sends (P : method → string → value → Prop) {A} (m : M A) : Prop :=
  ∀ w, ∃ evs, trace (m w).2 = trace w ++ evs
              ∧ Forall (λ c, P (http_method c) (url c) (body c)) (sent evs).

(** The operations that go through the retry helper. *)
Definition retried (op : Op) : bool :=
  match op with
  | Login _ | GetDepartments | GetUsers => true
  | _ => false
  end.

(** The operations that are one request and hand back its outcome. *)
Definition is_plain (op : Op) : bool :=
  match op with
  | CheckBackendConnection | Login _ | GetDepartments | GetUsers | UpdateOKR _ _ => false
  | _ => true
  end.

(** ** Reasoning about computations *)

Lemma bind_ok {A B} (m : M A) (f : A → M B) w a w' :
  m w = (Ok a, w') → (m ≫= f) w = f a w'.
Proof. intros H. unfold mbind, M_bind. by rewrite H. Qed.

Lemma bind_throw {A B} (m : M A) (f : A → M B) w x w' :
  m w = (Throw x, w') → (m ≫= f) w = (Throw x, w').
Proof. intros H. unfold mbind, M_bind. by rewrite H. Qed.

Lemma try_catch_ok {A} (m : M A) h w a w' :
  m w = (Ok a, w') → try_catch m h w = (Ok a, w').
Proof. intros H. unfold try_catch. by rewrite H. Qed.

Lemma try_catch_throw {A} (m : M A) h w x w' :
  m w = (Throw x, w') → try_catch m h w = h x w'.
Proof. intros H. unfold try_catch. by rewrite H. Qed.

(** A handler that rethrows what it caught changes nothing. *)
Lemma try_catch_rethrow {A} (m : M A) w :
  try_catch m (λ err, throw err) w = m w.
Proof. unfold try_catch, throw. by destruct (m w) as [[a|x] w']. Qed.

(** *** The classification of rejections *)

Lemma not_retried_spec e :
  not_retried e = false ↔ code e = VStr "ERR_NETWORK" ∨ code e = VStr "ECONNABORTED".
Proof.
  unfold not_retried. destruct (code e) as [| |b|z| |s|l|o];
    try (split; [by rewrite ?orb_true_r | intros [?|?]; discriminate]).
  unfold strict_ne_str, truthy. split.
  - intros H. apply orb_false_iff in H as [_ H]. apply andb_false_iff in H.
    destruct H as [H|H]; apply negb_false_iff, bool_decide_eq_true in H; subst; auto.
  - intros [H|H]; injection H as ->; reflexivity.
Qed.

Lemma http_status_error_not_retried r : not_retried (http_status_error r) = true.
Proof.
  unfold http_status_error, not_retried. simpl.
  destruct (_ && _); [done|]. by destruct (_ && _).
Qed.

Lemma setup_error_not_retried msg : not_retried (setup_error msg) = true.
Proof. reflexivity. Qed.

Lemma network_error_retried : not_retried network_error = false.
Proof. reflexivity. Qed.

Lemma timeout_error_retried : not_retried timeout_error = false.
Proof. reflexivity. Qed.

(** *** The retry loop, one iteration at a time *)

Lemma retry_loop_ok {A} (apiCall : M A) d k n last w a w' :
  apiCall w = (Ok a, w') →
  retry_loop apiCall d (S k) n last w = (Ok a, w').
Proof. intros H. simpl. by apply try_catch_ok. Qed.

Lemma retry_loop_rethrow {A} (apiCall : M A) d k n last w e w' :
  apiCall w = (Throw (ThrowError e), w') →
  not_retried e = true →
  retry_loop apiCall d (S k) n last w = (Throw (ThrowError e), w').
Proof.
  intros H Hn. simpl. rewrite (try_catch_throw _ _ _ _ _ H). by rewrite Hn.
Qed.

Lemma retry_loop_again {A} (apiCall : M A) d k n last w e w' :
  apiCall w = (Throw (ThrowError e), w') →
  not_retried e = false →
  retry_loop apiCall d (S k) n last w =
  retry_loop apiCall d k (S n) (ThrowError e) (sleep (d * 2 ^ Z.of_nat n) w').2.
Proof.
  intros H Hn. simpl. rewrite (try_catch_throw _ _ _ _ _ H). by rewrite Hn.
Qed.

(** Three transient failures in a row, under the default arguments: the
    third rejection is the outcome, after a delay of 1000, of 2000 and, once
    the third attempt has failed, of 4000. *)
Lemma apiCallWithRetry_exhausted {A} (apiCall : M A) w0 e1 w1 e2 w2 e3 w3 :
  apiCall w0 = (Throw (ThrowError e1), w1) → not_retried e1 = false →
  apiCall (sleep 1000 w1).2 = (Throw (ThrowError e2), w2) → not_retried e2 = false →
  apiCall (sleep 2000 w2).2 = (Throw (ThrowError e3), w3) → not_retried e3 = false →
  apiCallWithRetry_default apiCall w0 = (Throw (ThrowError e3), (sleep 4000 w3).2).
Proof.
  intros H1 N1 H2 N2 H3 N3. unfold apiCallWithRetry_default, apiCallWithRetry.
  rewrite (retry_loop_again _ _ _ _ _ _ _ _ H1 N1).
  rewrite (retry_loop_again _ _ _ _ _ _ _ _ H2 N2).
  rewrite (retry_loop_again _ _ _ _ _ _ _ _ H3 N3).
  reflexivity.
Qed.

(** *** Computations that only read the storage *)

Lemma sent_app evs1 evs2 : sent (evs1 ++ evs2) = sent evs1 ++ sent evs2.
Proof. apply omap_app. Qed.

Lemma client_only_ret {A} (a : A) : client_only (mret a).
Proof. intros w. split; [done|]. exists []. by rewrite app_nil_r. Qed.

Lemma client_only_throw {A} x : client_only (@throw A x).
Proof. intros w. split; [done|]. exists []. by rewrite app_nil_r. Qed.

Lemma client_only_lift_result {A} (r : result A) : client_only (lift_result r).
Proof. intros w. split; [done|]. exists []. by rewrite app_nil_r. Qed.

Lemma client_only_sleep ms : client_only (sleep ms).
Proof. intros w. split; [done|]. exists [ESleep ms]. split; [done|]. constructor. Qed.

Lemma client_only_bind {A B} (m : M A) (f : A → M B) :
  client_only m → (∀ a, client_only (f a)) → client_only (m ≫= f).
Proof.
  intros Hm Hf w. destruct (Hm w) as [Hw [evs [Ht Hs]]].
  unfold mbind, M_bind. destruct (m w) as [[a|x] w1]; simpl in *.
  - destruct (Hf a w1) as [Hw2 [evs2 [Ht2 Hs2]]]. split; [congruence|].
    exists (evs ++ evs2). rewrite Ht2, Ht, app_assoc. split; [done|].
    rewrite sent_app. apply Forall_app. split; [done|]. by rewrite <- Hw.
  - split; [done|]. by exists evs.
Qed.

Lemma client_only_try_catch {A} (m : M A) (h : thrown → M A) :
  client_only m → (∀ x, client_only (h x)) → client_only (try_catch m h).
Proof.
  intros Hm Hh w. destruct (Hm w) as [Hw [evs [Ht Hs]]].
  unfold try_catch. destruct (m w) as [[a|x] w1]; simpl in *.
  - split; [done|]. by exists evs.
  - destruct (Hh x w1) as [Hw2 [evs2 [Ht2 Hs2]]]. split; [congruence|].
    exists (evs ++ evs2). rewrite Ht2, Ht, app_assoc. split; [done|].
    rewrite sent_app. apply Forall_app. split; [done|]. by rewrite <- Hw.
Qed.

Lemma request_interceptor_world c w : (request_interceptor c w).2 = w.
Proof.
  unfold request_interceptor. destruct (window w) as [ls|]; [|done].
  destruct (getItem ls "auth_token") as [| | | | |token| |]; try done.
  by destruct (truthy (VStr token)).
Qed.

Lemma request_interceptor_ok c w :
  ∃ c', (request_interceptor c w).1 = Ok c'
        ∧ (request_interceptor c {| window := window w; trace := [] |}).1 = Ok c'.
Proof.
  unfold request_interceptor. cbn [window]. destruct (window w) as [ls|]; [|by exists c].
  destruct (getItem ls "auth_token") as [| | | | |token| |]; try by exists c.
  destruct (truthy (VStr token)); [|by exists c].
  by exists (set_header c "Authorization" ("Bearer " +:+ token)).
Qed.

Lemma client_only_request m path d : client_only (apiClient_request m path d).
Proof.
  intros w. unfold apiClient_request, mbind, M_bind.
  pose proof (request_interceptor_world (create_config m path d) w) as Hw.
  destruct (request_interceptor_ok (create_config m path d) w) as [c' [H1 H2]].
  destruct (request_interceptor _ w) as [r w1]. simpl in *. subst w1 r.
  split; [done|]. exists [ESend c']. split; [done|].
  constructor; [|constructor]. by exists m, path, d.
Qed.

Lemma client_only_retry_loop {A} (apiCall : M A) d k :
  client_only apiCall → ∀ n last, client_only (retry_loop apiCall d k n last).
Proof.
  intros Hc. induction k as [|k IH]; intros n last; simpl.
  - apply client_only_throw.
  - apply client_only_try_catch; [done|]. intros [|e].
    + apply client_only_throw.
    + destruct (not_retried e); [apply client_only_throw|].
      apply client_only_bind; [apply client_only_sleep | intros _; apply IH].
Qed.

Lemma client_only_retry {A} (apiCall : M A) :
  client_only apiCall → client_only (apiCallWithRetry_default apiCall).
Proof. intros H. by apply client_only_retry_loop. Qed.

Lemma client_only_returning_data call : client_only call → client_only (returning_data call).
Proof.
  intros H. apply client_only_try_catch; [|intros; apply client_only_throw].
  apply client_only_bind; [done | intros; apply client_only_ret].
Qed.

Create HintDb client.

#[local] Hint Resolve client_only_ret client_only_throw client_only_lift_result
  client_only_sleep client_only_bind client_only_try_catch client_only_request
  client_only_retry client_only_returning_data : client.

Lemma client_only_api op : client_only (api op).
Proof.
  destruct op; simpl;
    unfold checkBackendConnection, login, getDepartments, getBusinessUnits, getBusinessUnit,
      createBusinessUnit, updateBusinessUnit, deleteBusinessUnit, getOKRBusinessUnits,
      assignBusinessUnitsToOKR, getUsers, getUser, getOKRs, getOKR, createOKR, updateOKR,
      deleteOKR, getChildOKRs, getOKRAssignedUsers, addUserToOKR, removeUserFromOKR,
      setPrimaryUserForOKR, getTasks, getTask, createTask, updateTask, deleteTask,
      getOKRTasks, getUserOKRs, getUserTasks, getTaskChallenges, getTaskChallenge,
      createTaskChallenge, updateTaskChallenge, deleteTaskChallenge, getTaskChallengesByTask,
      apiClient_get, apiClient_post, apiClient_put, apiClient_delete;
    auto 10 with client.
Qed.

(** *** One request *)

Lemma new_events_app w w' evs :
  trace w' = trace w ++ evs → new_events w w' = evs.
Proof. intros H. unfold new_events. by rewrite H, drop_app_length. Qed.

Lemma request_interceptor_shape c w :
  ∃ c', request_interceptor c w = (Ok c', w)
        ∧ url c' = url c ∧ http_method c' = http_method c ∧ body c' = body c.
Proof.
  unfold request_interceptor. destruct (window w) as [ls|]; [|by exists c].
  destruct (getItem ls "auth_token") as [| | | | |token| |]; try by exists c.
  destruct (truthy (VStr token)); [|by exists c].
  by exists (set_header c "Authorization" ("Bearer " +:+ token)).
Qed.

Lemma apiClient_request_run m path d w :
  ∃ c, apiClient_request m path d w
       = (response_interceptor (transport (trace w) c),
          {| window := window w; trace := trace w ++ [ESend c] |})
       ∧ url c = path ∧ http_method c = m ∧ body c = d.
Proof.
  destruct (request_interceptor_shape (create_config m path d) w) as [c [Hc [Hu [Hm Hb]]]].
  exists c. split; [|done]. unfold apiClient_request.
  by rewrite (bind_ok _ _ _ _ _ Hc).
Qed.

Lemma response_interceptor_throw x :
  ∃ x', response_interceptor (Throw x) = Throw x'.
Proof. destruct x; by eexists. Qed.

(** *** Claims about the retry helper and the calls that swallow failures *)

(** C2. When an attempt of a retried operation rejects with an error that
    the helper does not classify as transient (its code is neither
    ERR_NETWORK nor ECONNABORTED: every HTTP error status, every error
    raised while the request is set up), the helper rejects with that very
    error and leaves the world exactly as that attempt left it: no delay
    and nothing after it.  On the first attempt this is one attempt in
    all; it holds for every positive retry count and every initial delay,
    the defaults among them, and at every later iteration of the loop. *)
Theorem apiCallWithRetry_propagates_non_transient {A} (apiCall : M A)
    (retryCount : nat) (initialDelayMs : Z) w e w' :
  (0 < retryCount)%nat →
  apiCall w = (Throw (ThrowError e), w') →
  not_retried e = true →
  apiCallWithRetry apiCall retryCount initialDelayMs w = (Throw (ThrowError e), w')
  ∧ ∀ remaining attempt lastError,
      retry_loop apiCall initialDelayMs (S remaining) attempt lastError w
      = (Throw (ThrowError e), w').
Proof.
  intros Hpos Hcall Hn. split.
  - destruct retryCount as [|k]; [lia|]. by apply retry_loop_rethrow.
  - intros. by apply retry_loop_rethrow.
Qed.

Lemma retry_loop_fails {A} (apiCall : M A) d :
  (∀ w, ∃ x w', apiCall w = (Throw x, w')) →
  ∀ k n last w, ∃ x w', retry_loop apiCall d k n last w = (Throw x, w').
Proof.
  intros Hfail. induction k as [|k IH]; intros n last w; simpl.
  - by exists last, w.
  - destruct (Hfail w) as [x [w' H]]. rewrite (try_catch_throw _ _ _ _ _ H).
    destruct x as [|e]; [by eexists _, _|].
    destruct (not_retried e); [by eexists _, _|].
    unfold sleep, emit, mbind, M_bind. apply IH.
Qed.

Lemma apiClient_get_fails path :
  (∀ history c, ∃ x, transport history c = Throw x) →
  ∀ w, ∃ x w', apiClient_get path w = (Throw x, w').
Proof.
  intros Hfail w. destruct (apiClient_request_run GET path VUndefined w) as [c [H _]].
  destruct (Hfail (trace w) c) as [x Hx]. unfold apiClient_get. rewrite H, Hx.
  destruct (response_interceptor_throw x) as [x' ->]. by eexists _, _.
Qed.

Lemma swallow_to_empty_list (call : M response) w :
  let wrapped :=
    try_catch (resp ← call; mret (or_else (data resp) (VArr []))) (λ err, mret (VArr [])) in
  (∀ x w', call w = (Throw x, w') → wrapped w = (Ok (VArr []), w'))
  ∧ (∃ v, (wrapped w).1 = Ok v).
Proof.
  simpl. unfold try_catch, mbind, M_bind. destruct (call w) as [[resp|x] w1]; split.
  - intros ? ? [=].
  - by eexists.
  - by intros ? ? [= <- <-].
  - by eexists.
Qed.

(** C5. [getDepartments] and [getUsers] never reject.  Whatever the
    rejection of the retried request (transient after three attempts, or
    any other on the attempt that met it), the result is the empty list;
    in particular when every request fails, in whatever way. *)
Theorem list_reads_swallow_failures w :
  (∀ x w', apiCallWithRetry_default (apiClient_get "/api/departments/") w = (Throw x, w') →
           getDepartments w = (Ok (VArr []), w'))
  ∧ (∀ x w', apiCallWithRetry_default (apiClient_get "/api/users/") w = (Throw x, w') →
             getUsers w = (Ok (VArr []), w'))
  ∧ ((∀ history c, ∃ x, transport history c = Throw x) →
     (getDepartments w).1 = Ok (VArr []) ∧ (getUsers w).1 = Ok (VArr []))
  ∧ (∃ v, (getDepartments w).1 = Ok v)
  ∧ (∃ v, (getUsers w).1 = Ok v).
Proof.
  pose proof (swallow_to_empty_list
    (apiCallWithRetry_default (apiClient_get "/api/departments/")) w) as [Hd1 Hd2].
  pose proof (swallow_to_empty_list
    (apiCallWithRetry_default (apiClient_get "/api/users/")) w) as [Hu1 Hu2].
  split_and!; try done.
  intros Hfail. split.
  - destruct (retry_loop_fails _ 1000 (apiClient_get_fails "/api/departments/" Hfail)
      3%nat 0%nat ThrowUndefined w) as [x [w' H]].
    unfold getDepartments. by rewrite (Hd1 _ _ H).
  - destruct (retry_loop_fails _ 1000 (apiClient_get_fails "/api/users/" Hfail)
      3%nat 0%nat ThrowUndefined w) as [x [w' H]].
    unfold getUsers. by rewrite (Hu1 _ _ H).
Qed.

(** C9. [checkBackendConnection] sends one GET to [/api/] and never
    rejects: it resolves to [true] when that request succeeds and to
    [false] when it fails, whatever the failure. *)
Theorem checkBackendConnection_never_rejects w :
  ∃ c, new_events w (checkBackendConnection w).2 = [ESend c]
       ∧ http_method c = GET ∧ url c = "/api/"
       ∧ (checkBackendConnection w).1 =
         match transport (trace w) c with
         | Ok _ => Ok (VBool true)
         | Throw _ => Ok (VBool false)
         end.
Proof.
  destruct (apiClient_request_run GET "/api/" VUndefined w) as [c [H [Hu [Hm _]]]].
  exists c. unfold checkBackendConnection, apiClient_get, try_catch, mbind, M_bind.
  rewrite H. destruct (transport (trace w) c) as [r|x].
  - simpl. split; [by apply new_events_app|done].
  - destruct (response_interceptor_throw x) as [x' ->]. simpl.
    split; [by apply new_events_app|done].
Qed.

(** *** Claims about the credential *)

Lemma auth_token_window w w' : window w' = window w → auth_token w' = auth_token w.
Proof. unfold auth_token. by intros ->. Qed.

Lemma create_config_no_authorization m path d :
  headers (create_config m path d) !! "Authorization" = None.
Proof. by apply lookup_singleton_ne. Qed.

Lemma intercepted_headers win c :
  intercepted win c →
  headers c !! "Authorization" =
    match win with
    | Some ls =>
      match ls !! "auth_token" with
      | Some token => if bool_decide (token = "") then None else Some ("Bearer " +:+ token)
      | None => None
      end
    | None => None
    end.
Proof.
  intros [m [path [d H]]]. unfold request_interceptor, getItem in H. cbn [window] in H.
  pose proof (create_config_no_authorization m path d) as Hnone.
  destruct win as [ls|]; [|by injection H as <-].
  destruct (ls !! "auth_token") as [token|]; [|by injection H as <-].
  unfold truthy in H. destruct (bool_decide (token = "")); simpl in H; injection H as <-; [done|].
  apply lookup_insert_eq.
Qed.

(** C4, as the interceptor has it.  Every request that any operation of
    the client dispatches carries [Authorization: Bearer <token>] when the
    storage holds a token that is not the empty string; it carries no
    [Authorization] header when there is no token, when the stored string
    is empty, or when there is no window. *)
Theorem authorization_header_follows_token op w c :
  c ∈ sent (new_events w (api op w).2) →
  (∀ token, auth_token w = Some token → token ≠ "" →
            headers c !! "Authorization" = Some ("Bearer " +:+ token))
  ∧ (auth_token w = None ∨ auth_token w = Some "" →
     headers c !! "Authorization" = None).
Proof.
  intros Hc. destruct (client_only_api op w) as [_ [evs [Ht Hall]]].
  rewrite (new_events_app _ _ _ Ht) in Hc.
  rewrite Forall_forall in Hall. apply Hall, intercepted_headers in Hc. rewrite Hc.
  unfold auth_token. destruct (window w) as [ls|]; simpl; [|by split].
  destruct (ls !! "auth_token") as [t|]; [|by split].
  split.
  - intros token [= ->] Hne. by rewrite bool_decide_eq_false_2.
  - intros [[=]|[= ->]]. done.
Qed.

Lemma client_only_fetchTasks : client_only fetchTasks.
Proof. unfold fetchTasks, getTasks, apiClient_get. auto 10 with client. Qed.

Lemma client_only_api_action op :
  client_only (try_catch (r ← api op; mret ()) (λ err, mret ())).
Proof. pose proof (client_only_api op). auto 10 with client. Qed.

Lemma run_session_api_window ops w :
  window (run_session (ApiCall <$> ops) w) = window w.
Proof.
  revert w. induction ops as [|op ops IH]; intros w; [done|].
  simpl. rewrite IH. apply client_only_api_action.
Qed.

(** C8. No operation of the client changes the storage: after one call,
    and after any sequence of calls, the window and the token in it are
    what they were.  Among everything the application does, the token
    changes only in a login handler, which stores one, and in the logout
    handler, which removes it. *)
Theorem api_calls_leave_token_untouched :
  (∀ op w, window (api op w).2 = window w)
  ∧ (∀ ops w, auth_token (run_session (ApiCall <$> ops) w) = auth_token w)
  ∧ (∀ a w, auth_token (run_action a w).2 ≠ auth_token w →
       (is_login a ∧ auth_token (run_action a w).2 = Some "mock_token")
       ∨ (a = Logout ∧ auth_token (run_action a w).2 = None)).
Proof.
  split_and!.
  - intros op w. apply client_only_api.
  - intros ops w. apply auth_token_window, run_session_api_window.
  - intros a w Hne. destruct a as [op|cr|cr| | |]; simpl in *.
    + exfalso. apply Hne, auth_token_window, client_only_api_action.
    + left. split; [done|]. destruct w as [[ls|] tr]; [|by destruct Hne].
      apply lookup_insert_eq.
    + left. split; [done|]. destruct w as [[ls|] tr]; [|by destruct Hne].
      unfold TasksPage_handleLogin, mbind, M_bind. simpl.
      rewrite (auth_token_window _ _ (proj1 (client_only_fetchTasks _))).
      apply lookup_insert_eq.
    + exfalso. apply Hne, auth_token_window. by destruct w as [[ls|] tr].
    + exfalso. apply Hne, auth_token_window. destruct w as [[ls|] tr]; [|done].
      unfold TasksPage_checkAuth, mbind, M_bind. simpl.
      destruct (truthy _); [|done].
      by rewrite (proj1 (client_only_fetchTasks _)).
    + right. split; [done|]. destruct w as [[ls|] tr]; [|by destruct Hne].
      apply lookup_delete_eq.
Qed.

(** *** The payloads of create and update *)

Ltac lookup_simpl :=
  repeat first
    [ rewrite lookup_insert_eq
    | rewrite lookup_delete_eq
    | rewrite lookup_insert_ne by done
    | rewrite lookup_delete_ne by done ].

Lemma sends_payload_unique {A} (m : M A) w out1 out2 :
  sends_payload m w out1 → sends_payload m w out2 → out1 = out2.
Proof. intros [c1 [H1 B1]] [c2 [H2 B2]]. congruence. Qed.

Lemma request_then_data_run m path d w :
  ∃ c r, (resp ← apiClient_request m path d; mret (data resp)) w
         = (r, {| window := window w; trace := trace w ++ [ESend c] |})
         ∧ body c = d.
Proof.
  destruct (apiClient_request_run m path d w) as [c [H [_ [_ Hb]]]].
  unfold mbind, M_bind. rewrite H. exists c.
  destruct (response_interceptor (transport (trace w) c)); by eexists.
Qed.

Lemma createOKR_sends okrData w :
  sends_payload (createOKR okrData) w (createOKR_transform okrData).
Proof.
  unfold createOKR. unfold sends_payload. rewrite try_catch_rethrow.
  destruct (request_then_data_run POST "/api/okrs/" (VObj (createOKR_transform okrData)) w)
    as [c [r [H Hb]]].
  exists c. unfold apiClient_post. rewrite H. split; [|done].
  by rewrite (new_events_app _ _ [ESend c]).
Qed.

Lemma updateOKR_sends okrId okrData w out :
  sends_payload (updateOKR okrId okrData) w out ↔ updateOKR_transform okrData = Ok out.
Proof.
  unfold updateOKR, sends_payload. rewrite try_catch_rethrow.
  unfold lift_result, mbind at 1, M_bind at 1.
  destruct (updateOKR_transform okrData) as [out'|x].
  - destruct (request_then_data_run PUT ("/api/okrs/" +:+ okrId +:+ "/") (VObj out') w)
      as [c [r [H Hb]]].
    unfold apiClient_put. rewrite H. cbn [snd]. rewrite (new_events_app _ _ [ESend c]) by done.
    split.
    + intros [c' [[= <-] Hb']]. congruence.
    + intros [= <-]. by exists c.
  - cbn [snd]. rewrite (new_events_app _ _ []) by by rewrite app_nil_r.
    split; [by intros [c [[=] _]] | done].
Qed.

Lemma createOKR_transform_title okrData :
  createOKR_transform okrData !! "title" =
    if truthy (get okrData "title") then None else okrData !! "title".
Proof.
  unfold createOKR_transform, get. lookup_simpl.
  destruct (truthy (default VUndefined (okrData !! "title"))); by lookup_simpl.
Qed.

Lemma createOKR_transform_name okrData :
  createOKR_transform okrData !! "name" = Some (get okrData "title").
Proof.
  unfold createOKR_transform, get. lookup_simpl.
  destruct (truthy (default VUndefined (okrData !! "title"))); by lookup_simpl.
Qed.

(** What create does with the assignment and business-unit fields: the
    id fields are the input's own or a default, and [assigned_users] and
    [business_units] pass through untouched. *)
Lemma createOKR_transform_passes_through okrData :
  createOKR_transform okrData !! "assigned_user_ids"
    = Some (or_else (get okrData "assigned_user_ids") (VArr []))
  ∧ createOKR_transform okrData !! "primary_user_id"
    = Some (or_else (get okrData "primary_user_id") VNull)
  ∧ createOKR_transform okrData !! "business_unit_ids"
    = Some (or_else (get okrData "business_unit_ids") (VArr []))
  ∧ createOKR_transform okrData !! "assigned_users" = okrData !! "assigned_users"
  ∧ createOKR_transform okrData !! "business_units" = okrData !! "business_units".
Proof.
  unfold createOKR_transform, get. lookup_simpl.
  destruct (truthy (default VUndefined (okrData !! "title"))); lookup_simpl; by split_and!.
Qed.

(** C7, as the guard on the [delete] has it.  For a create payload whose
    [title] is truthy, the outgoing payload has [name] equal to that title
    and no [title] key (whether or not the input had a [name]). *)
Theorem createOKR_renames_truthy_title okrData title w out :
  okrData !! "title" = Some title →
  truthy title = true →
  sends_payload (createOKR okrData) w out →
  out !! "name" = Some title ∧ out !! "title" = None.
Proof.
  intros Ht Htruthy Hs.
  rewrite (sends_payload_unique _ _ _ _ Hs (createOKR_sends okrData w)).
  rewrite createOKR_transform_name, createOKR_transform_title.
  unfold get. rewrite Ht. simpl. by rewrite Htruthy.
Qed.

(** C10. For a create payload whose [title] is falsy, the outgoing payload
    keeps the [title] key with that value, next to [name] set to the same
    value; and whenever an input [title] is gone from the outgoing payload,
    it was truthy. *)
Theorem createOKR_keeps_falsy_title okrData title w out :
  okrData !! "title" = Some title →
  sends_payload (createOKR okrData) w out →
  (truthy title = false → out !! "title" = Some title ∧ out !! "name" = Some title)
  ∧ (out !! "title" = None → truthy title = true).
Proof.
  intros Ht Hs.
  rewrite (sends_payload_unique _ _ _ _ Hs (createOKR_sends okrData w)).
  rewrite createOKR_transform_name, createOKR_transform_title.
  unfold get. rewrite Ht. simpl. by destruct (truthy title).
Qed.

Lemma or_else_truthy a b : truthy b = true → truthy (or_else a b) = true.
Proof. intros H. unfold or_else. by destruct (truthy a) eqn:Ha. Qed.

Lemma updateOKR_transform_shape okrData out :
  updateOKR_transform okrData = Ok out →
  ∃ ids prim,
    updateOKR_assigned_user_ids okrData = Ok ids
    ∧ updateOKR_primary_user_id okrData = Ok prim
    ∧ out !! "assigned_user_ids" = Some ids
    ∧ out !! "primary_user_id" = Some prim
    ∧ out !! "business_unit_ids" =
        Some (or_else (or_else (get okrData "business_unit_ids") (get okrData "business_units"))
                (VArr []))
    ∧ out !! "assigned_users" =
        (if truthy (get okrData "assigned_users") then None else okrData !! "assigned_users")
    ∧ out !! "business_units" =
        (if truthy (get okrData "business_units") then None else okrData !! "business_units").
Proof.
  unfold updateOKR_transform, mbind, result_bind, mret, result_ret.
  destruct (updateOKR_assigned_user_ids okrData) as [ids|]; [|done].
  destruct (updateOKR_primary_user_id okrData) as [prim|]; [|done].
  intros [= <-]. exists ids, prim. split; [done|]. split; [done|].
  set (bu := or_else (or_else _ _) _).
  assert (Hbu : truthy bu = true) by by apply or_else_truthy.
  unfold get. lookup_simpl.
  destruct (truthy (default VUndefined (okrData !! "assigned_users")));
    lookup_simpl; simpl; rewrite Hbu, ?andb_true_r;
    destruct (truthy (default VUndefined (okrData !! "business_units")));
    by lookup_simpl.
Qed.

Lemma updateOKR_transform_total okrData ids prim :
  updateOKR_assigned_user_ids okrData = Ok ids →
  updateOKR_primary_user_id okrData = Ok prim →
  ∃ out, updateOKR_transform okrData = Ok out.
Proof.
  intros Hi Hp. unfold updateOKR_transform, mbind, result_bind. rewrite Hi, Hp. by eexists.
Qed.

(** C6, for the update operation and as the guards have it.  In the
    outgoing payload of an update, [business_unit_ids] is the input's own
    when that is truthy, and otherwise the input's [business_units] when
    that is truthy (a list always is); a truthy [business_units] is never
    sent. *)
Theorem updateOKR_business_units okrId okrData w out :
  sends_payload (updateOKR okrId okrData) w out →
  (truthy (get okrData "business_unit_ids") = false →
   truthy (get okrData "business_units") = true →
   out !! "business_unit_ids" = Some (get okrData "business_units"))
  ∧ (truthy (get okrData "business_unit_ids") = true →
     out !! "business_unit_ids" = Some (get okrData "business_unit_ids"))
  ∧ (truthy (get okrData "business_units") = true → out !! "business_units" = None).
Proof.
  intros Hs. apply updateOKR_sends, updateOKR_transform_shape in Hs.
  destruct Hs as [ids [prim [_ [_ [_ [_ [Hbu [_ Hunits]]]]]]]]. rewrite Hbu, Hunits.
  unfold or_else. split_and!.
  - intros Ha Hb. by rewrite Ha, Hb.
  - intros Ha. by rewrite Ha, Ha.
  - by intros ->.
Qed.

(** *** The assignment list on update *)

Lemma array_map_user_id entries :
  Forall is_object entries →
  array_map (λ user, read_property user "user_id") entries = Ok (entry_user_id <$> entries).
Proof.
  induction 1 as [|v l [o ->] _ IH]; [done|]. simpl. by rewrite IH.
Qed.

Lemma array_find_is_primary entries :
  Forall is_object entries →
  array_find (λ user, read_property user "is_primary") entries
  = Ok (default VUndefined (List.find entry_is_primary entries)).
Proof.
  induction 1 as [|v l [o ->] _ IH]; [done|]. simpl.
  by destruct (truthy (get o "is_primary")).
Qed.

Lemma find_is_object entries v :
  Forall is_object entries → List.find entry_is_primary entries = Some v → is_object v.
Proof.
  intros Hall Hf. apply find_some in Hf as [Hin _].
  rewrite Forall_forall in Hall. by apply Hall, list_elem_of_In.
Qed.

(** The update operation does split [assigned_users]: for a list of entry
    objects, the outgoing payload has the [user_id]s in order under
    [assigned_user_ids], under [primary_user_id] the [user_id] of the first
    entry whose [is_primary] is truthy ([undefined], which the JSON encoding
    leaves out, when there is none), and no [assigned_users]. *)
Lemma updateOKR_splits_assigned_users okrData entries :
  okrData !! "assigned_users" = Some (VArr entries) →
  Forall is_object entries →
  ∃ out, updateOKR_transform okrData = Ok out
         ∧ out !! "assigned_user_ids" = Some (VArr (entry_user_id <$> entries))
         ∧ out !! "primary_user_id" =
             Some (from_option entry_user_id VUndefined (List.find entry_is_primary entries))
         ∧ out !! "assigned_users" = None.
Proof.
  intros Hau Hall.
  assert (Hids : updateOKR_assigned_user_ids okrData = Ok (VArr (entry_user_id <$> entries))).
  { unfold updateOKR_assigned_user_ids, get. rewrite Hau. simpl.
    by rewrite (array_map_user_id _ Hall). }
  assert (Hprim : updateOKR_primary_user_id okrData
                  = Ok (from_option entry_user_id VUndefined (List.find entry_is_primary entries))).
  { unfold updateOKR_primary_user_id, get. rewrite Hau. simpl.
    rewrite (array_find_is_primary _ Hall). simpl.
    destruct (List.find entry_is_primary entries) as [v|] eqn:Hf; [|done].
    by destruct (find_is_object _ _ Hall Hf) as [o ->]. }
  destruct (updateOKR_transform_total _ _ _ Hids Hprim) as [out Hout].
  exists out. split; [done|].
  destruct (updateOKR_transform_shape _ _ Hout) as [ids [prim [Hi [Hp [Hi' [Hp' [_ [Hu _]]]]]]]].
  unfold get in Hu. rewrite Hau in Hu. split_and!; [congruence|congruence|done].
Qed.

(** ** Further properties of the client *)

(** *** The retry helper *)

(** X1. With an attempt left, what the helper does with a rejection is
    decided by the error's [code] alone: it awaits the backoff delay and
    goes on exactly when the code is the string ERR_NETWORK or
    ECONNABORTED, and otherwise (no code, an empty code, a code that is
    not a string, any other string) rejects with that error at once. *)
Theorem retry_decided_by_code {A} (apiCall : M A) delay remaining attempt lastError w e w' :
  apiCall w = (Throw (ThrowError e), w') →
  (code e = VStr "ERR_NETWORK" ∨ code e = VStr "ECONNABORTED" →
   retry_loop apiCall delay (S remaining) attempt lastError w
   = retry_loop apiCall delay remaining (S attempt) (ThrowError e)
       (sleep (delay * 2 ^ Z.of_nat attempt) w').2)
  ∧ (code e ≠ VStr "ERR_NETWORK" → code e ≠ VStr "ECONNABORTED" →
     retry_loop apiCall delay (S remaining) attempt lastError w = (Throw (ThrowError e), w')).
Proof.
  intros Hcall. split.
  - intros Hcode. apply retry_loop_again; [done|]. by apply not_retried_spec.
  - intros H1 H2. apply retry_loop_rethrow; [done|].
    destruct (not_retried e) eqn:Hn; [done|].
    apply not_retried_spec in Hn. tauto.
Qed.

Lemma retry_loop_transient_run {A} (apiCall : M A) delay n j w w' :
  transient_run apiCall delay n j w w' →
  ∀ k last, ∃ last',
    retry_loop apiCall delay (j + k) n last w = retry_loop apiCall delay k (n + j) last' w'
    ∧ (j = 0%nat → last' = last).
Proof.
  induction 1 as [n w|n j w e w1 w' Hcall Hn _ IH]; intros k last.
  - exists last. by rewrite Nat.add_0_r.
  - destruct (IH k (ThrowError e)) as [last' [Heq _]]. exists last'.
    split; [|done]. cbn [Nat.add].
    rewrite (retry_loop_again _ _ _ _ _ _ _ _ Hcall Hn), Heq.
    by replace (S n + j)%nat with (n + S j)%nat by lia.
Qed.

(** X2. The helper recovers from transient failures: when fewer attempts
    than the retry count reject with a retried error and the next attempt
    succeeds, the helper resolves to that attempt's result, in the world
    that attempt left (nothing is awaited or sent after the success). *)
Theorem apiCallWithRetry_recovers {A} (apiCall : M A) retryCount delay j w w' a w'' :
  transient_run apiCall delay 0 j w w' →
  (j < retryCount)%nat →
  apiCall w' = (Ok a, w'') →
  apiCallWithRetry apiCall retryCount delay w = (Ok a, w'').
Proof.
  intros Hrun Hlt Hok. unfold apiCallWithRetry.
  replace retryCount with (j + S (retryCount - j - 1))%nat by lia.
  destruct (retry_loop_transient_run _ _ _ _ _ _ Hrun (S (retryCount - j - 1)) ThrowUndefined)
    as [last' [-> _]].
  by apply retry_loop_ok.
Qed.

Lemma delays_app evs1 evs2 : delays (evs1 ++ evs2) = delays evs1 ++ delays evs2.
Proof. apply omap_app. Qed.

Lemma backoff_S delay n j :
  backoff delay n (S j) = delay * 2 ^ Z.of_nat n :: backoff delay (S n) j.
Proof. reflexivity. Qed.

Lemma request_interceptor_window cfg w w' :
  window w = window w' → (request_interceptor cfg w).1 = (request_interceptor cfg w').1.
Proof.
  intros H. unfold request_interceptor. rewrite H. destruct (window w') as [ls|]; [|done].
  destruct (getItem ls "auth_token") as [| | | | |token| |]; try done.
  by destruct (truthy (VStr token)).
Qed.

(** In worlds that share a window the same call dispatches the same
    configuration. *)
Lemma apiClient_request_uniform m path d win :
  ∃ c, url c = path ∧ http_method c = m ∧ body c = d
       ∧ ∀ w, window w = win →
           apiClient_request m path d w
           = (response_interceptor (transport (trace w) c),
              {| window := window w; trace := trace w ++ [ESend c] |}).
Proof.
  destruct (request_interceptor_shape (create_config m path d) {| window := win; trace := [] |})
    as [c [Hc0 [Hu [Hm Hb]]]].
  exists c. split_and!; try done. intros w Hw.
  destruct (request_interceptor_shape (create_config m path d) w) as [c' [Hc' _]].
  pose proof (request_interceptor_window (create_config m path d) w
                {| window := win; trace := [] |} Hw) as Heq.
  rewrite Hc', Hc0 in Heq. injection Heq as ->.
  unfold apiClient_request. by rewrite (bind_ok _ _ _ _ _ Hc').
Qed.

Lemma retry_loop_request_trace m path d delay win c :
  (∀ w, window w = win →
        apiClient_request m path d w
        = (response_interceptor (transport (trace w) c),
           {| window := window w; trace := trace w ++ [ESend c] |})) →
  ∀ k n last w, window w = win →
    let run := retry_loop (apiClient_request m path d) delay k n last w in
    ∃ s evs,
      trace run.2 = trace w ++ evs ∧ window run.2 = win
      ∧ sent evs = replicate s c ∧ (s ≤ k)%nat
      ∧ ((1 ≤ s)%nat ∧ delays evs = backoff delay n (s - 1)
         ∨ s = k ∧ delays evs = backoff delay n k ∧ ∃ x, run.1 = Throw x).
Proof.
  intros Hc. induction k as [|k IH]; intros n last w Hw; simpl.
  - exists 0%nat, []. rewrite app_nil_r. split_and!; try done. right. by eauto.
  - unfold try_catch. rewrite (Hc w Hw).
    destruct (response_interceptor (transport (trace w) c)) as [r|[|e]];
      [| |destruct (not_retried e)];
      try (exists 1%nat, [ESend c]; cbn [throw fst snd window trace];
           split_and!; try done; [lia | left; by split]).
      unfold sleep, emit, mbind, M_bind. cbn [window trace].
      set (w2 := {| window := window w; trace := (trace w ++ [ESend c]) ++ [ESleep _] |}).
      destruct (IH (S n) (ThrowError e) w2 Hw) as [s [evs [Ht [Hwin [Hs [Hle Hcase]]]]]].
      exists (S s), ([ESend c; ESleep (delay * 2 ^ Z.of_nat n)] ++ evs).
      split_and!.
      * rewrite Ht. subst w2. cbn [trace]. by rewrite <- !app_assoc.
      * done.
      * by rewrite sent_app, Hs.
      * lia.
      * rewrite delays_app. change (delays [ESend c; ESleep (delay * 2 ^ Z.of_nat n)])
          with [delay * 2 ^ Z.of_nat n].
        destruct Hcase as [[H1 Hd]|[-> [Hd Hx]]].
        -- left. split; [lia|]. rewrite Hd.
           replace (S s - 1)%nat with (S (s - 1)) by lia. by rewrite backoff_S.
        -- right. by rewrite Hd, backoff_S.
Qed.


(** *** What every request looks like *)

Lemma only_sends_ret P {A} (a : A) : only_sends P (mret a).
Proof. intros w. exists []. by rewrite app_nil_r. Qed.

Lemma only_sends_throw P {A} x : only_sends P (@throw A x).
Proof. intros w. exists []. by rewrite app_nil_r. Qed.

Lemma only_sends_lift_result P {A} (r : result A) : only_sends P (lift_result r).
Proof. intros w. exists []. by rewrite app_nil_r. Qed.

Lemma only_sends_sleep P ms : only_sends P (sleep ms).
Proof. intros w. exists [ESleep ms]. split; [done|]. constructor. Qed.

Lemma only_sends_bind P {A B} (m : M A) (f : A → M B) :
  only_sends P m → (∀ a, only_sends P (f a)) → only_sends P (m ≫= f).
Proof.
  intros Hm Hf w. destruct (Hm w) as [evs [Ht Hs]].
  unfold mbind, M_bind. destruct (m w) as [[a|x] w1]; simpl in *; [|by exists evs].
  destruct (Hf a w1) as [evs2 [Ht2 Hs2]].
  exists (evs ++ evs2). rewrite Ht2, Ht, app_assoc. split; [done|].
  rewrite sent_app. by apply Forall_app.
Qed.

Lemma only_sends_try_catch P {A} (m : M A) (h : thrown → M A) :
  only_sends P m → (∀ x, only_sends P (h x)) → only_sends P (try_catch m h).
Proof.
  intros Hm Hh w. destruct (Hm w) as [evs [Ht Hs]].
  unfold try_catch. destruct (m w) as [[a|x] w1]; simpl in *; [by exists evs|].
  destruct (Hh x w1) as [evs2 [Ht2 Hs2]].
  exists (evs ++ evs2). rewrite Ht2, Ht, app_assoc. split; [done|].
  rewrite sent_app. by apply Forall_app.
Qed.

Lemma only_sends_request (P : method → string → value → Prop) m path d :
  P m path d → only_sends P (apiClient_request m path d).
Proof.
  intros HP w. destruct (apiClient_request_run m path d w) as [c [H [Hu [Hm Hb]]]].
  exists [ESend c]. rewrite H. split; [done|].
  constructor; [|constructor]. by rewrite Hu, Hm, Hb.
Qed.

Lemma only_sends_retry_loop P {A} (apiCall : M A) d k :
  only_sends P apiCall → ∀ n last, only_sends P (retry_loop apiCall d k n last).
Proof.
  intros Hc. induction k as [|k IH]; intros n last; simpl.
  - apply only_sends_throw.
  - apply only_sends_try_catch; [done|]. intros [|e]; [apply only_sends_throw|].
    destruct (not_retried e); [apply only_sends_throw|].
    apply only_sends_bind; [apply only_sends_sleep | intros _; apply IH].
Qed.

Lemma only_sends_retry P {A} (apiCall : M A) :
  only_sends P apiCall → only_sends P (apiCallWithRetry_default apiCall).
Proof. intros H. by apply only_sends_retry_loop. Qed.

Lemma only_sends_returning_data P call :
  only_sends P call → only_sends P (returning_data call).
Proof.
  intros H. apply only_sends_try_catch; [|intros; apply only_sends_throw].
  apply only_sends_bind; [done | intros; apply only_sends_ret].
Qed.

Ltac unfold_api :=
  unfold checkBackendConnection, login, getDepartments, getBusinessUnits, getBusinessUnit,
    createBusinessUnit, updateBusinessUnit, deleteBusinessUnit, getOKRBusinessUnits,
    assignBusinessUnitsToOKR, getUsers, getUser, getOKRs, getOKR, createOKR, updateOKR,
    deleteOKR, getChildOKRs, getOKRAssignedUsers, addUserToOKR, removeUserFromOKR,
    setPrimaryUserForOKR, getTasks, getTask, createTask, updateTask, deleteTask,
    getOKRTasks, getUserOKRs, getUserTasks, getTaskChallenges, getTaskChallenge,
    createTaskChallenge, updateTaskChallenge, deleteTaskChallenge, getTaskChallengesByTask,
    apiClient_get, apiClient_post, apiClient_put, apiClient_delete.

Lemma only_sends_api op :
  only_sends (λ m path d, String.prefix "/api/" path = true
                          ∧ (m = GET ∨ m = DELETE → d = VUndefined)) (api op).
Proof.
  destruct op; simpl; unfold_api;
    repeat first
      [ apply only_sends_request; split; [reflexivity | intros [|]; done]
      | apply only_sends_returning_data
      | apply only_sends_retry
      | apply only_sends_lift_result
      | apply only_sends_ret
      | apply only_sends_throw
      | apply only_sends_try_catch
      | apply only_sends_bind
      | intro ].
Qed.

Lemma API_BASE_URL_nonempty : API_BASE_URL ≠ "".
Proof.
  unfold API_BASE_URL. destruct NEXT_PUBLIC_API_URL as [s|]; [|done].
  unfold truthy. destruct (bool_decide (s = "")) eqn:H; [done|].
  by apply bool_decide_eq_false in H.
Qed.

Lemma intercepted_fields win c :
  intercepted win c →
  baseURL c = API_BASE_URL ∧ timeout c = 15000
  ∧ headers c !! "Content-Type" = Some "application/json".
Proof.
  intros [m [path [d H]]]. unfold request_interceptor, getItem in H. cbn [window] in H.
  assert (Hct : headers (create_config m path d) !! "Content-Type" = Some "application/json")
    by apply lookup_singleton_eq.
  destruct win as [ls|]; [|by injection H as <-].
  destruct (ls !! "auth_token") as [token|]; [|by injection H as <-].
  destruct (truthy (VStr token)); simpl in H; injection H as <-; [|done].
  by split_and!.
Qed.

(** X4. Every request that any operation dispatches goes to the configured
    base URL, which is never empty (an unset or empty
    NEXT_PUBLIC_API_URL gives http://localhost:8000), has a timeout of
    15000 ms and the header Content-Type: application/json, has a path
    under /api/, and has no body when its verb is GET or DELETE. *)
Theorem requests_are_well_formed op w c :
  c ∈ sent (new_events w (api op w).2) →
  baseURL c = API_BASE_URL ∧ baseURL c ≠ ""
  ∧ timeout c = 15000
  ∧ headers c !! "Content-Type" = Some "application/json"
  ∧ String.prefix "/api/" (url c) = true
  ∧ (http_method c = GET ∨ http_method c = DELETE → body c = VUndefined).
Proof.
  intros Hc.
  destruct (client_only_api op w) as [_ [evs [Ht Hall]]].
  destruct (only_sends_api op w) as [evs' [Ht' Hall']].
  assert (evs' = evs) as -> by (rewrite Ht in Ht'; by apply app_inv_head in Ht').
  rewrite (new_events_app _ _ _ Ht) in Hc.
  rewrite Forall_forall in Hall, Hall'.
  destruct (intercepted_fields _ _ (Hall c Hc)) as [Hb [Hto Hct]].
  destruct (Hall' c Hc) as [Hp Hbody].
  split_and!; try done. rewrite Hb. apply API_BASE_URL_nonempty.
Qed.

(** *** Operations that are one request *)

Lemma returning_data_request m path d w :
  ∃ c, url c = path ∧ http_method c = m ∧ body c = d
       ∧ returning_data (apiClient_request m path d) w
         = (match response_interceptor (transport (trace w) c) with
            | Ok r => Ok (data r)
            | Throw x => Throw x
            end,
            {| window := window w; trace := trace w ++ [ESend c] |}).
Proof.
  destruct (apiClient_request_run m path d w) as [c [H [Hu [Hm Hb]]]].
  exists c. split_and!; try done.
  unfold returning_data. rewrite try_catch_rethrow. unfold mbind, M_bind. rewrite H.
  by destruct (response_interceptor (transport (trace w) c)).
Qed.

Lemma plain_run op w :
  is_plain op = true →
  ∃ c, api op w
       = (match response_interceptor (transport (trace w) c) with
          | Ok r => Ok (data r)
          | Throw x => Throw x
          end,
          {| window := window w; trace := trace w ++ [ESend c] |}).
Proof.
  destruct op; try discriminate; intros _; simpl; unfold_api;
    match goal with
    | |- context [apiClient_request ?m ?p ?d] =>
      destruct (returning_data_request m p d w) as [c [_ [_ [_ H]]]]; exists c; exact H
    end.
Qed.

(** X5. Every operation other than the connectivity probe, the three
    retried ones and the update of an objective is exactly one request:
    it resolves to the [data] of the response as it came, or rejects with
    the very error the request was rejected with, and neither repeats the
    request nor waits. *)
Theorem plain_operations_pass_through op w :
  is_plain op = true →
  ∃ c, new_events w (api op w).2 = [ESend c]
       ∧ (∀ r, transport (trace w) c = Ok r → (api op w).1 = Ok (data r))
       ∧ (∀ e, transport (trace w) c = Throw (ThrowError e) →
               (api op w).1 = Throw (ThrowError e)).
Proof.
  intros Hp. destruct (plain_run op w Hp) as [c H]. exists c. rewrite H. split_and!.
  - by apply new_events_app.
  - by intros r ->.
  - by intros e ->.
Qed.

Lemma unretried_events op w :
  retried op = false →
  new_events w (api op w).2 = [] ∨ ∃ c, new_events w (api op w).2 = [ESend c].
Proof.
  intros Hr. destruct (is_plain op) eqn:Hp.
  - right. destruct (plain_run op w Hp) as [c H]. exists c. rewrite H. by apply new_events_app.
  - destruct op; try discriminate; cbn [api].
    + right. destruct (apiClient_request_run GET "/api/" VUndefined w) as [c [H _]].
      exists c. unfold checkBackendConnection, apiClient_get, try_catch, mbind, M_bind.
      rewrite H. destruct (response_interceptor (transport (trace w) c));
        by apply new_events_app.
    + unfold updateOKR. rewrite try_catch_rethrow.
      destruct (updateOKR_transform okrData) as [out|x].
      * right. rewrite (bind_ok (lift_result (Ok out)) _ w out w eq_refl).
        destruct (request_then_data_run PUT ("/api/okrs/" +:+ okrId +:+ "/") (VObj out) w)
          as [c [r [H _]]].
        exists c. unfold apiClient_put. rewrite H. by apply new_events_app.
      * left. rewrite (bind_throw (lift_result (Throw x)) _ w x w eq_refl).
        apply new_events_app. by rewrite app_nil_r.
Qed.

Lemma try_catch_map_world {A B} (m : M A) (f : A → B) (h : thrown → M B) w :
  (∀ x w', (h x w').2 = w') →
  (try_catch (r ← m; mret (f r)) h w).2 = (m w).2.
Proof.
  intros Hh. unfold try_catch, mbind, M_bind. destruct (m w) as [[a|x] w']; [done|].
  apply Hh.
Qed.

Lemma retried_world op w :
  retried op = true →
  ∃ m path d,
    (api op w).2 = (apiCallWithRetry (apiClient_request m path d) 3 1000 w).2.
Proof.
  destruct op; try discriminate; intros _; simpl.
  - exists POST, "/api/token/", credentials. unfold login. by apply try_catch_map_world.
  - exists GET, "/api/departments/", VUndefined. unfold getDepartments.
    by apply try_catch_map_world.
  - exists GET, "/api/users/", VUndefined. unfold getUsers. by apply try_catch_map_world.
Qed.

(** X6. However the backend behaves, one call of an operation dispatches
    at most 3 requests and spends at most 7000 ms in backoff delays; an
    operation that does not go through the retry helper (all but login and
    the lists of departments and users) dispatches at most one request
    and never waits. *)
Theorem requests_and_waiting_are_bounded op w :
  let evs := new_events w (api op w).2 in
  (length (sent evs) ≤ 3)%nat
  ∧ foldr Z.add 0 (delays evs) ≤ 7000
  ∧ (retried op = false → (length (sent evs) ≤ 1)%nat ∧ delays evs = []).
Proof.
  simpl. destruct (retried op) eqn:Hr.
  - destruct (retried_world op w Hr) as [m [path [d ->]]].
    destruct (apiClient_request_uniform m path d (window w)) as [c [_ [_ [_ Hc]]]].
    destruct (retry_loop_request_trace m path d 1000 (window w) c Hc
                3%nat 0%nat ThrowUndefined w eq_refl) as [s [evs [Ht [_ [Hs [Hle Hcase]]]]]].
    unfold apiCallWithRetry. rewrite (new_events_app _ _ _ Ht), Hs, length_replicate.
    split_and!; [done| |done].
    destruct Hcase as [[H1 ->]|[-> [-> _]]]; [|by vm_compute].
    destruct s as [|[|[|[|s]]]]; try lia; by vm_compute.
  - destruct (unretried_events op w Hr) as [->|[c ->]]; simpl; split_and!;
      try done; try lia; intros _; split; (done || lia).
Qed.

(** *** The lists that swallow failures *)

Lemma swallow_truthy (call : M response) w :
  ∃ v, (try_catch (resp ← call; mret (or_else (data resp) (VArr [])))
          (λ err, mret (VArr [])) w).1 = Ok v
       ∧ truthy v = true
       ∧ (∀ r w', call w = (Ok r, w') → truthy (data r) = true → v = data r)
       ∧ (∀ r w', call w = (Ok r, w') → truthy (data r) = false → v = VArr []).
Proof.
  unfold try_catch, mbind, M_bind. destruct (call w) as [[r|x] w1]; simpl.
  - exists (or_else (data r) (VArr [])). unfold or_else.
    destruct (truthy (data r)) eqn:Ht; split_and!; try done;
      intros r' w' [= <- _]; congruence.
  - exists (VArr []). by split_and!.
Qed.

(** X7. The lists of departments and of users always resolve to a truthy
    value, never to [null], [undefined], an empty string, 0 or [false]:
    the body of a successful response when that body is truthy, and the
    empty list when the body is falsy or the request failed. *)
Theorem list_reads_are_truthy w :
  (∃ v, (getDepartments w).1 = Ok v ∧ truthy v = true
        ∧ (∀ r w', apiCallWithRetry_default (apiClient_get "/api/departments/") w = (Ok r, w') →
                   v = if truthy (data r) then data r else VArr []))
  ∧ (∃ v, (getUsers w).1 = Ok v ∧ truthy v = true
          ∧ (∀ r w', apiCallWithRetry_default (apiClient_get "/api/users/") w = (Ok r, w') →
                     v = if truthy (data r) then data r else VArr [])).
Proof.
  split.
  - destruct (swallow_truthy (apiCallWithRetry_default (apiClient_get "/api/departments/")) w)
      as [v [Hv [Ht [H1 H2]]]].
    exists v. split_and!; try done. intros r w' Hc.
    destruct (truthy (data r)) eqn:Hd; eauto.
  - destruct (swallow_truthy (apiCallWithRetry_default (apiClient_get "/api/users/")) w)
      as [v [Hv [Ht [H1 H2]]]].
    exists v. split_and!; try done. intros r w' Hc.
    destruct (truthy (data r)) eqn:Hd; eauto.
Qed.

(** *** More on the payloads of create and update *)

(** X8. Creating an objective always dispatches its one request, and the
    [name] that goes out is the input's [title], whatever the input's own
    [name]: a payload that has a [name] and no [title] goes out with
    [name] undefined. *)
Theorem createOKR_name_is_title okrData w :
  ∃ out, sends_payload (createOKR okrData) w out
         ∧ out !! "name" = Some (get okrData "title")
         ∧ (okrData !! "title" = None → out !! "name" = Some VUndefined).
Proof.
  exists (createOKR_transform okrData). split; [apply createOKR_sends|].
  rewrite createOKR_transform_name. split; [done|]. unfold get. by intros ->.
Qed.

Lemma lookup_cond_delete (b : bool) k' (m : gmap string value) k :
  k ≠ k' → (if b then delete k' m else m) !! k = m !! k.
Proof. intros H. destruct b; [by apply lookup_delete_ne | done]. Qed.

(** X9. Create leaves every field alone but the five it writes: a key
    other than [name], [title], [assigned_user_ids], [primary_user_id] and
    [business_unit_ids] is in the outgoing payload exactly when it is in
    the input, with the same value. *)
Theorem createOKR_other_fields_pass_through okrData w out k :
  sends_payload (createOKR okrData) w out →
  k ∉ ["name"; "title"; "assigned_user_ids"; "primary_user_id"; "business_unit_ids"] →
  out !! k = okrData !! k.
Proof.
  intros Hs Hk.
  rewrite (sends_payload_unique _ _ _ _ Hs (createOKR_sends okrData w)).
  repeat (apply not_elem_of_cons in Hk as [? Hk]).
  unfold createOKR_transform. rewrite lookup_cond_delete by done.
  by repeat rewrite lookup_insert_ne by congruence.
Qed.

(** X10. Update leaves every field alone but the five it handles: a key
    other than [assigned_user_ids], [primary_user_id], [business_unit_ids],
    [assigned_users] and [business_units] is in the outgoing payload
    exactly when it is in the input, with the same value. *)
Theorem updateOKR_other_fields_pass_through okrId okrData w out k :
  sends_payload (updateOKR okrId okrData) w out →
  k ∉ ["assigned_user_ids"; "primary_user_id"; "business_unit_ids";
       "assigned_users"; "business_units"] →
  out !! k = okrData !! k.
Proof.
  intros Hs Hk. apply updateOKR_sends in Hs.
  repeat (apply not_elem_of_cons in Hk as [? Hk]).
  revert Hs. unfold updateOKR_transform, mbind, result_bind, mret, result_ret.
  destruct (updateOKR_assigned_user_ids okrData) as [ids|]; [|done].
  destruct (updateOKR_primary_user_id okrData) as [prim|]; [|done].
  intros [= <-]. rewrite !lookup_cond_delete by done.
  by repeat rewrite lookup_insert_ne by congruence.
Qed.

(** X11. An update whose [assigned_users] is absent or falsy is sent, with
    an empty [assigned_user_ids] and a null [primary_user_id], whatever
    [assigned_user_ids] and [primary_user_id] the input itself carries. *)
Theorem updateOKR_without_assigned_users okrId okrData w :
  truthy (get okrData "assigned_users") = false →
  ∃ out, sends_payload (updateOKR okrId okrData) w out
         ∧ out !! "assigned_user_ids" = Some (VArr [])
         ∧ out !! "primary_user_id" = Some VNull.
Proof.
  intros Hf.
  assert (Hi : updateOKR_assigned_user_ids okrData = Ok (VArr []))
    by (unfold updateOKR_assigned_user_ids; by rewrite Hf).
  assert (Hp : updateOKR_primary_user_id okrData = Ok VNull)
    by (unfold updateOKR_primary_user_id; by rewrite Hf).
  destruct (updateOKR_transform_total _ _ _ Hi Hp) as [out Hout].
  exists out. split; [by apply updateOKR_sends|].
  destruct (updateOKR_transform_shape _ _ Hout) as [ids [prim [Hi' [Hp' [-> [-> _]]]]]].
  split; congruence.
Qed.

Lemma array_map_user_id_throws l :
  VNull ∈ l ∨ VUndefined ∈ l →
  ∃ msg, array_map (λ user, read_property user "user_id") l = Throw (TypeError msg).
Proof.
  induction l as [|x l IH]; intros H.
  - destruct H as [H|H]; by apply elem_of_nil in H.
  - assert (Hbad : (x = VNull ∨ x = VUndefined) ∨ (VNull ∈ l ∨ VUndefined ∈ l)).
    { destruct H as [H|H]; apply elem_of_cons in H as [<-|H]; auto. }
    simpl. destruct Hbad as [[->| ->]|Hl]; [by eexists|by eexists|].
    destruct (IH Hl) as [msg Hmsg].
    destruct (read_property x "user_id") as [y|[|e]] eqn:Hx.
    + unfold mbind, result_bind. rewrite Hmsg. by eexists.
    + by destruct x.
    + destruct x; try discriminate; injection Hx as <-; by eexists.
Qed.

(** X12. An update whose [assigned_users] is truthy but not an array, or
    is an array with a [null] or [undefined] entry, is not sent: the
    operation rejects with a TypeError and dispatches no request. *)
Theorem updateOKR_rejects_malformed_assigned_users okrId okrData v w :
  okrData !! "assigned_users" = Some v →
  truthy v = true →
  (∀ l, v ≠ VArr l) ∨ (∃ l, v = VArr l ∧ (VNull ∈ l ∨ VUndefined ∈ l)) →
  ∃ msg, updateOKR okrId okrData w = (Throw (TypeError msg), w).
Proof.
  intros Hv Ht Hbad.
  assert (Hids : ∃ msg, updateOKR_assigned_user_ids okrData = Throw (TypeError msg)).
  { unfold updateOKR_assigned_user_ids, get. rewrite Hv. cbn [default from_option id]. rewrite Ht.
    destruct Hbad as [Hna|[l [-> Hl]]].
    - destruct v; try by eexists. by destruct (Hna l).
    - simpl. destruct (array_map_user_id_throws l Hl) as [msg ->]. by eexists. }
  destruct Hids as [msg Hids]. exists msg.
  unfold updateOKR. rewrite try_catch_rethrow.
  apply bind_throw. unfold lift_result, updateOKR_transform, mbind, result_bind.
  by rewrite Hids.
Qed.

(** X13. An update whose [assigned_users] is a list of objects is sent
    with [assigned_user_ids] the [user_id]s in the order of the list, with
    [primary_user_id] the [user_id] of the first entry whose [is_primary]
    is truthy ([undefined] when there is none), and without
    [assigned_users]. *)
Theorem updateOKR_sends_split_assignment okrId okrData entries w :
  okrData !! "assigned_users" = Some (VArr entries) →
  Forall is_object entries →
  ∃ out, sends_payload (updateOKR okrId okrData) w out
         ∧ out !! "assigned_user_ids" = Some (VArr (entry_user_id <$> entries))
         ∧ out !! "primary_user_id" =
             Some (from_option entry_user_id VUndefined (List.find entry_is_primary entries))
         ∧ out !! "assigned_users" = None.
Proof.
  intros Hau Hall.
  destruct (updateOKR_splits_assigned_users okrData entries Hau Hall) as [out [Hout H]].
  exists out. split; [by apply updateOKR_sends | done].
Qed.

(** *** The pages: login, logout and the check on load *)

Lemma sent_authorization op w c :
  c ∈ sent (new_events w (api op w).2) →
  headers c !! "Authorization" =
    match window w with
    | Some ls =>
      match ls !! "auth_token" with
      | Some token => if bool_decide (token = "") then None else Some ("Bearer " +:+ token)
      | None => None
      end
    | None => None
    end.
Proof.
  intros Hc. destruct (client_only_api op w) as [_ [evs [Ht Hall]]].
  rewrite (new_events_app _ _ _ Ht) in Hc.
  rewrite Forall_forall in Hall. by apply Hall, intercepted_headers in Hc.
Qed.

Lemma fetchTasks_run w :
  ∃ c, fetchTasks w = (Ok (), {| window := window w; trace := trace w ++ [ESend c] |})
       ∧ http_method c = GET ∧ url c = "/api/tasks/" ∧ body c = VUndefined
       ∧ c ∈ sent (new_events w (api GetTasks w).2).
Proof.
  destruct (returning_data_request GET "/api/tasks/" VUndefined w) as [c [Hu [Hm [Hb H]]]].
  exists c. split_and!; try done.
  - unfold fetchTasks, getTasks, apiClient_get, try_catch, mbind, M_bind. rewrite H.
    by destruct (response_interceptor (transport (trace w) c)).
  - cbn [api]. unfold getTasks, apiClient_get. rewrite H. cbn [snd].
    rewrite (new_events_app _ _ [ESend c]) by done. simpl. constructor.
Qed.

(** X14. Logging in and out act on what the client sends.  In a browser,
    after [handleLogin] every request of every operation carries
    Authorization: Bearer mock_token, whatever was stored before; after
    [handleLogout] no request carries an Authorization header; and a
    logout after a login leaves no token. *)
Theorem login_and_logout_decide_the_header w ls cr :
  window w = Some ls →
  (∀ op c, c ∈ sent (new_events (Home_handleLogin cr w).2
                       (api op (Home_handleLogin cr w).2).2) →
           headers c !! "Authorization" = Some "Bearer mock_token")
  ∧ (∀ op c, c ∈ sent (new_events (handleLogout w).2 (api op (handleLogout w).2).2) →
             headers c !! "Authorization" = None)
  ∧ auth_token (handleLogout (Home_handleLogin cr w).2).2 = None.
Proof.
  intros Hw. destruct w as [win tr]. simpl in Hw. subst win. split_and!.
  - intros op c Hc. apply sent_authorization in Hc. rewrite Hc. simpl.
    by rewrite lookup_insert_eq.
  - intros op c Hc. apply sent_authorization in Hc. rewrite Hc. simpl.
    by rewrite lookup_delete_eq.
  - unfold auth_token. simpl. apply lookup_delete_eq.
Qed.


(** X16. On load the tasks page fetches the tasks exactly when the storage
    holds a token that is not the empty string: then it sends the one GET
    of /api/tasks/, with that token as bearer; with no token or an empty
    one it sends nothing.  Either way the check resolves, even when the
    request fails. *)
Theorem TasksPage_checkAuth_fetches_iff_token w ls :
  window w = Some ls →
  (TasksPage_checkAuth w).1 = Ok ()
  ∧ (ls !! "auth_token" = None ∨ ls !! "auth_token" = Some "" →
     new_events w (TasksPage_checkAuth w).2 = [])
  ∧ (∀ token, ls !! "auth_token" = Some token → token ≠ "" →
       ∃ c, new_events w (TasksPage_checkAuth w).2 = [ESend c]
            ∧ http_method c = GET ∧ url c = "/api/tasks/"
            ∧ headers c !! "Authorization" = Some ("Bearer " +:+ token)).
Proof.
  intros Hw. destruct w as [win tr]. simpl in Hw. subst win.
  set (w := {| window := Some ls; trace := tr |}).
  destruct (fetchTasks_run w) as [c [Hrun [Hm [Hu [Hb Hc]]]]].
  apply sent_authorization in Hc. simpl in Hc.
  unfold TasksPage_checkAuth, mbind, M_bind. simpl. fold w. unfold getItem.
  destruct (ls !! "auth_token") as [t|] eqn:Ht; simpl.
  - destruct (bool_decide (t = "")) eqn:He; simpl.
    + apply bool_decide_eq_true in He. subst t. split_and!; try done.
      * intros _. apply new_events_app. by rewrite app_nil_r.
      * by intros token [= <-] Hne.
    + apply bool_decide_eq_false in He. rewrite Hrun. split_and!; try done.
      * by intros [?|[= ->]].
      * intros token [= <-] _. exists c. split_and!; try done. by apply new_events_app.
  - split_and!; try done. intros _. apply new_events_app. by rewrite app_nil_r.
Qed.

(** *** Continuing an iteration *)

Lemma createOKR_run okrData w :
  ∃ c, http_method c = POST ∧ url c = "/api/okrs/"
       ∧ body c = VObj (createOKR_transform okrData)
       ∧ createOKR okrData w
         = (match response_interceptor (transport (trace w) c) with
            | Ok r => Ok (data r)
            | Throw x => Throw x
            end,
            {| window := window w; trace := trace w ++ [ESend c] |}).
Proof.
  destruct (returning_data_request POST "/api/okrs/" (VObj (createOKR_transform okrData)) w)
    as [c [Hu [Hm [Hb H]]]].
  exists c. split_and!; try done.
Qed.

Lemma array_map_cons_ok f x l l' :
  array_map f (x :: l) = Ok l' → ∃ y ys, l' = y :: ys.
Proof.
  simpl. unfold mbind, result_bind. destruct (f x) as [y|]; [|done].
  destruct (array_map f l) as [ys|]; [|done]. intros [= <-]. by eexists _, _.
Qed.

(** What the handler does whenever the callback is not reached. *)
Lemma handleContinueIteration_run data assignedUsers callback p :
  assignedUsers ≠ [] ∨ callback = None →
  handleContinueIteration data assignedUsers callback p
  = (Ok (),
     {| world := (createOKR (newOKRData data) (world p)).2;
        alerts := alerts p ++
          [match (createOKR (newOKRData data) (world p)).1, assignedUsers with
           | Ok _, [] => "New iteration created successfully! Refresh to see changes."
           | _, _ => "Failed to create new iteration. Please try again."
           end] |}).
Proof.
  intros Hcb. unfold handleContinueIteration, ui_try_catch, mbind, UI_bind, ui_lift.
  destruct (createOKR (newOKRData data) (world p)) as [[createdOKR|x] w1]; [|done].
  destruct assignedUsers as [|u l].
  - destruct Hcb as [?| ->]; done.
  - cbn [length]. replace (0 <? Z.of_nat (S (length l))) with true
      by (symmetry; apply Z.ltb_lt; lia).
    unfold ui_lift_result.
    destruct (array_map (userAssignment createdOKR) (u :: l)) as [l'|x] eqn:Hmap; [|done].
    by destruct (array_map_cons_ok _ _ _ _ Hmap) as [y [ys ->]].
Qed.

(** X17. Continuing an iteration does not transmit the name of the
    objective.  Whenever the callback is not reached (the node has assigned
    users, or no callback), the handler dispatches exactly one request, the
    POST of /api/okrs/, and its body has [name] undefined, whatever
    [data.name] is, and no [title]; it does carry the link to the previous
    iteration and the reset status, progress and due date. *)
Theorem continued_iteration_loses_name data assignedUsers callback p :
  assignedUsers ≠ [] ∨ callback = None →
  ∃ c out,
    new_events (world p) (world (handleContinueIteration data assignedUsers callback p).2)
    = [ESend c]
    ∧ http_method c = POST ∧ url c = "/api/okrs/" ∧ body c = VObj out
    ∧ out !! "name" = Some VUndefined
    ∧ out !! "title" = None
    ∧ out !! "previous_iteration_id" = Some (get data "okr_id")
    ∧ out !! "status" = Some (VStr "Not Started")
    ∧ out !! "progress_percent" = Some (VNum 0)
    ∧ out !! "due_date" = Some VNull.
Proof.
  intros Hcb. rewrite (handleContinueIteration_run _ _ _ _ Hcb). cbn [snd world].
  destruct (createOKR_run (newOKRData data) (world p)) as [c [Hm [Hu [Hb H]]]].
  exists c, (createOKR_transform (newOKRData data)). rewrite H. cbn [snd].
  split_and!; try done;
    try (by apply new_events_app);
    try (by rewrite createOKR_transform_name);
    try (by rewrite createOKR_transform_title);
    unfold createOKR_transform, newOKRData, get; rewrite lookup_cond_delete by done;
    by lookup_simpl.
Qed.

(** X18. On a node with assigned users, continuing an iteration always
    ends in the failure message, even when the objective has been created:
    copying the users calls [api.assignUserToOKR], which the client does not
    have.  After a create that resolved, the handler shows "Failed to
    create new iteration" and nothing else, dispatches no request after the
    create, and does not reach the callback. *)
Theorem continued_iteration_with_users_reports_failure
    data assignedUsers callback p createdOKR w1 :
  assignedUsers ≠ [] →
  createOKR (newOKRData data) (world p) = (Ok createdOKR, w1) →
  handleContinueIteration data assignedUsers callback p
  = (Ok (), {| world := w1;
               alerts := alerts p ++ ["Failed to create new iteration. Please try again."] |}).
Proof.
  intros Hne Hcreate. rewrite (handleContinueIteration_run _ _ _ _ (or_introl Hne)).
  rewrite Hcreate. by destruct assignedUsers.
Qed.

(** X19. On a node without assigned users and without callback, continuing
    an iteration shows exactly one message: the success message when the
    create resolved, the failure message when it was rejected; the handler
    itself never rejects. *)
Theorem continued_iteration_without_users data p :
  ∃ msg,
    handleContinueIteration data [] None p
    = (Ok (), {| world := (createOKR (newOKRData data) (world p)).2;
                 alerts := alerts p ++ [msg] |})
    ∧ ((∃ v, (createOKR (newOKRData data) (world p)).1 = Ok v) →
       msg = "New iteration created successfully! Refresh to see changes.")
    ∧ ((∃ x, (createOKR (newOKRData data) (world p)).1 = Throw x) →
       msg = "Failed to create new iteration. Please try again.").
Proof.
  eexists. split; [apply handleContinueIteration_run; by right|].
  destruct (createOKR (newOKRData data) (world p)) as [[v|x] w1]; simpl; split.
  - done.
  - by intros [? ?].
  - by intros [? ?].
  - done.
Qed.

End Client.

(** ** The client run against concrete backends *)

(** C1. Against a backend that fails transiently every time, a retried
    request is attempted three times and rejects with the third error, and
    the helper awaits 1000 ms and 2000 ms between the attempts; it then
    awaits 4000 ms more after the third attempt, before it rejects. *)
Lemma retry_exhausted_waits_after_last_attempt :
  let run :=
    apiCallWithRetry_default (apiClient_get None flaky_transport "/api/users/") (browser ∅) in
  run.1 = Throw (ThrowError (AxiosError "ERR_NETWORK" "third" None))
  ∧ length (sent (trace run.2)) = 3%nat
  ∧ delays (trace run.2) = [1000; 2000; 4000]
  ∧ last (trace run.2) = Some (ESleep 4000).
Proof. vm_compute. by split_and!. Qed.

Lemma apiCallWithRetry_propagates_non_transient_witness :
  let call := apiClient_get None not_found_transport "/api/okrs/" in
  let e := http_status_error {| status := 404; data := VStr "Not found" |} in
  call (browser ∅) = (Throw (ThrowError e), (call (browser ∅)).2)
  ∧ not_retried e = true
  ∧ apiCallWithRetry call 3 1000 (browser ∅) = (Throw (ThrowError e), (call (browser ∅)).2).
Proof.
  split; [reflexivity|]. split; [reflexivity|].
  apply (apiCallWithRetry_propagates_non_transient
           (apiClient_get None not_found_transport "/api/okrs/") 3 1000 (browser ∅));
    [lia | reflexivity | reflexivity].
Defined.

(** The same run read off the trace: one request, no delay. *)
Lemma not_found_is_tried_once :
  let run :=
    apiCallWithRetry_default (apiClient_get None not_found_transport "/api/okrs/") (browser ∅) in
  length (sent (trace run.2)) = 1%nat ∧ delays (trace run.2) = [].
Proof. vm_compute. by split. Qed.

(** Departments and users against backends that always fail. *)
Lemma list_reads_against_failing_backends :
  (getDepartments None flaky_transport (browser ∅)).1 = Ok (VArr [])
  ∧ (getUsers None flaky_transport (browser ∅)).1 = Ok (VArr [])
  ∧ (getDepartments None not_found_transport (browser ∅)).1 = Ok (VArr [])
  ∧ (getUsers None not_found_transport (browser ∅)).1 = Ok (VArr []).
Proof. vm_compute. by split_and!. Qed.

(** The counterexample to C4 as stated: with the empty string stored as the
    token, the request goes out without an [Authorization] header. *)
Lemma empty_token_sends_no_authorization :
  let w := browser {[ "auth_token" := "" ]} in
  auth_token w = Some ""
  ∧ ∃ c, sent (new_events w (api None ok_transport GetTasks w).2) = [c]
         ∧ headers c !! "Authorization" = None.
Proof. split; [reflexivity|]. eexists. split; vm_compute; reflexivity. Qed.

Lemma authorization_header_follows_token_witness :
  let w := browser {[ "auth_token" := "mock_token" ]} in
  let c := {| baseURL := "http://localhost:8000"; url := "/api/tasks/"; http_method := GET;
              headers := <[ "Authorization" := "Bearer mock_token" ]>
                           {[ "Content-Type" := "application/json" ]};
              timeout := 15000; body := VUndefined |} in
  c ∈ sent (new_events w (api None ok_transport GetTasks w).2)
  ∧ auth_token w = Some "mock_token"
  ∧ headers c !! "Authorization" = Some "Bearer mock_token".
Proof.
  assert (Hc : {| baseURL := "http://localhost:8000"; url := "/api/tasks/"; http_method := GET;
                  headers := <[ "Authorization" := "Bearer mock_token" ]>
                               {[ "Content-Type" := "application/json" ]};
                  timeout := 15000; body := VUndefined |}
               ∈ sent (new_events (browser {[ "auth_token" := "mock_token" ]})
                    (api None ok_transport GetTasks (browser {[ "auth_token" := "mock_token" ]})).2)).
  { vm_compute. constructor. }
  split; [exact Hc|]. split; [reflexivity|].
  apply (proj1 (authorization_header_follows_token None ok_transport GetTasks _ _ Hc) "mock_token");
    [reflexivity | discriminate].
Defined.

(** C3. The create operation does not split [assigned_users]: for the
    payload of the specification's example the outgoing payload has an
    empty [assigned_user_ids], a null [primary_user_id], and still carries
    [assigned_users]; the update operation, on the same payload, sends
    [[1, 2]], [1] and no [assigned_users]. *)
Lemma createOKR_does_not_split_assigned_users :
  let assigned_users :=
    VArr [ VObj {[ "user_id" := VNum 1; "is_primary" := VBool true ]};
           VObj {[ "user_id" := VNum 2; "is_primary" := VBool false ]} ] in
  let okrData : gmap string value := {[ "assigned_users" := assigned_users ]} in
  (∃ out, sends_payload (createOKR None ok_transport okrData) (browser ∅) out
          ∧ out !! "assigned_user_ids" = Some (VArr [])
          ∧ out !! "primary_user_id" = Some VNull
          ∧ out !! "assigned_users" = Some assigned_users)
  ∧ (∃ out, sends_payload (updateOKR None ok_transport "7" okrData) (browser ∅) out
            ∧ out !! "assigned_user_ids" = Some (VArr [VNum 1; VNum 2])
            ∧ out !! "primary_user_id" = Some (VNum 1)
            ∧ out !! "assigned_users" = None).
Proof.
  split.
  - eexists. split; [apply createOKR_sends|]. vm_compute. by split_and!.
  - eexists. split; [by apply updateOKR_sends; vm_compute|]. vm_compute. by split_and!.
Qed.

(** The counterexample to C6 as stated.  An update whose [business_units]
    is [null] and that has no [business_unit_ids] sends an empty
    [business_unit_ids] and still sends [business_units]; a create whose
    [business_units] is [[1, 2]] and that has no [business_unit_ids] sends
    an empty [business_unit_ids] and still sends [business_units]. *)
Lemma business_units_not_always_used_nor_stripped :
  (let okrData : gmap string value := {[ "business_units" := VNull ]} in
   okrData !! "business_unit_ids" = None
   ∧ ∃ out, sends_payload (updateOKR None ok_transport "7" okrData) (browser ∅) out
            ∧ out !! "business_unit_ids" = Some (VArr [])
            ∧ out !! "business_units" = Some VNull)
  ∧ (let okrData : gmap string value := {[ "business_units" := VArr [VNum 1; VNum 2] ]} in
     okrData !! "business_unit_ids" = None
     ∧ ∃ out, sends_payload (createOKR None ok_transport okrData) (browser ∅) out
              ∧ out !! "business_unit_ids" = Some (VArr [])
              ∧ out !! "business_units" = Some (VArr [VNum 1; VNum 2])).
Proof.
  split; (split; [reflexivity|]).
  - eexists. split; [by apply updateOKR_sends; vm_compute|]. vm_compute. by split.
  - eexists. split; [apply createOKR_sends|]. vm_compute. by split.
Qed.

Lemma updateOKR_business_units_witness :
  let units := VArr [VNum 1; VNum 2] in
  let okrData : gmap string value := {[ "business_units" := units ]} in
  let out : gmap string value :=
    {[ "assigned_user_ids" := VArr []; "primary_user_id" := VNull;
       "business_unit_ids" := units ]} in
  sends_payload (updateOKR None ok_transport "7" okrData) (browser ∅) out
  ∧ truthy (get okrData "business_unit_ids") = false
  ∧ truthy (get okrData "business_units") = true
  ∧ out !! "business_unit_ids" = Some units
  ∧ out !! "business_units" = None.
Proof.
  assert (Hs : sends_payload
                 (updateOKR None ok_transport "7" {[ "business_units" := VArr [VNum 1; VNum 2] ]})
                 (browser ∅)
                 {[ "assigned_user_ids" := VArr []; "primary_user_id" := VNull;
                    "business_unit_ids" := VArr [VNum 1; VNum 2] ]}).
  { eexists. split; vm_compute; reflexivity. }
  pose proof (updateOKR_business_units None ok_transport _ _ _ _ Hs) as [H1 [_ H3]].
  split; [exact Hs|]. split; [reflexivity|]. split; [reflexivity|].
  split; [apply H1; reflexivity | apply H3; reflexivity].
Defined.

(** The counterexample to C7 as stated: a create payload whose [title] is
    the empty string, and that has no [name], goes out with [name] set to
    the empty string and with its [title] key. *)
Lemma createOKR_empty_title_is_kept :
  let okrData : gmap string value := {[ "title" := VStr "" ]} in
  okrData !! "name" = None
  ∧ ∃ out, sends_payload (createOKR None ok_transport okrData) (browser ∅) out
           ∧ out !! "name" = Some (VStr "")
           ∧ out !! "title" = Some (VStr "").
Proof.
  split; [reflexivity|]. eexists. split; [apply createOKR_sends|]. vm_compute. by split.
Qed.

Lemma createOKR_renames_truthy_title_witness :
  let okrData : gmap string value := {[ "title" := VStr "Grow revenue" ]} in
  let out : gmap string value :=
    {[ "name" := VStr "Grow revenue"; "assigned_user_ids" := VArr [];
       "primary_user_id" := VNull; "business_unit_ids" := VArr [] ]} in
  okrData !! "title" = Some (VStr "Grow revenue")
  ∧ truthy (VStr "Grow revenue") = true
  ∧ sends_payload (createOKR None ok_transport okrData) (browser ∅) out
  ∧ out !! "name" = Some (VStr "Grow revenue")
  ∧ out !! "title" = None.
Proof.
  assert (Hs : sends_payload
                 (createOKR None ok_transport {[ "title" := VStr "Grow revenue" ]})
                 (browser ∅)
                 {[ "name" := VStr "Grow revenue"; "assigned_user_ids" := VArr [];
                    "primary_user_id" := VNull; "business_unit_ids" := VArr [] ]}).
  { eexists. split; vm_compute; reflexivity. }
  split; [reflexivity|]. split; [reflexivity|]. split; [exact Hs|].
  exact (createOKR_renames_truthy_title None ok_transport
           {[ "title" := VStr "Grow revenue" ]} (VStr "Grow revenue") (browser ∅) _
           eq_refl eq_refl Hs).
Defined.

Lemma createOKR_keeps_falsy_title_witness :
  let okrData : gmap string value := {[ "title" := VStr "" ]} in
  let out : gmap string value :=
    {[ "title" := VStr ""; "name" := VStr ""; "assigned_user_ids" := VArr [];
       "primary_user_id" := VNull; "business_unit_ids" := VArr [] ]} in
  okrData !! "title" = Some (VStr "")
  ∧ sends_payload (createOKR None ok_transport okrData) (browser ∅) out
  ∧ truthy (VStr "") = false
  ∧ out !! "title" = Some (VStr "")
  ∧ out !! "name" = Some (VStr "").
Proof.
  assert (Hs : sends_payload
                 (createOKR None ok_transport {[ "title" := VStr "" ]})
                 (browser ∅)
                 {[ "title" := VStr ""; "name" := VStr ""; "assigned_user_ids" := VArr [];
                    "primary_user_id" := VNull; "business_unit_ids" := VArr [] ]}).
  { eexists. split; vm_compute; reflexivity. }
  split; [reflexivity|]. split; [exact Hs|]. split; [reflexivity|].
  exact (proj1 (createOKR_keeps_falsy_title None ok_transport
                  {[ "title" := VStr "" ]} (VStr "") (browser ∅) _ eq_refl Hs) eq_refl).
Defined.

(** ** The further properties at concrete inputs *)

Lemma retry_decided_by_code_witness :
  let call := apiClient_get None not_found_transport "/api/okrs/" in
  let e := http_status_error {| status := 404; data := VStr "Not found" |} in
  call (browser ∅) = (Throw (ThrowError e), (call (browser ∅)).2)
  ∧ retry_loop call 1000 2 0 ThrowUndefined (browser ∅)
    = (Throw (ThrowError e), (call (browser ∅)).2).
Proof.
  assert (Hcall : apiClient_get None not_found_transport "/api/okrs/" (browser ∅)
                  = (Throw (ThrowError
                              (http_status_error {| status := 404; data := VStr "Not found" |})),
                     (apiClient_get None not_found_transport "/api/okrs/" (browser ∅)).2))
    by reflexivity.
  split; [exact Hcall|].
  apply (proj2 (retry_decided_by_code _ 1000 1 0 ThrowUndefined _ _ _ Hcall));
    simpl; discriminate.
Defined.

Lemma apiCallWithRetry_recovers_witness :
  let call := apiClient_get None recovering_transport "/api/users/" in
  let w' := (sleep 1000 (call (browser ∅)).2).2 in
  let r := {| status := 200; data := VObj {[ "okr_id" := VNum 9 ]} |} in
  transient_run call 1000 0 1 (browser ∅) w'
  ∧ call w' = (Ok r, (call w').2)
  ∧ apiCallWithRetry call 3 1000 (browser ∅) = (Ok r, (call w').2).
Proof.
  assert (Hrun : transient_run (apiClient_get None recovering_transport "/api/users/") 1000 0 1
                   (browser ∅)
                   (sleep 1000
                      (apiClient_get None recovering_transport "/api/users/" (browser ∅)).2).2).
  { eapply transient_run_cons; [reflexivity | reflexivity | apply transient_run_nil]. }
  split; [exact Hrun|]. split; [reflexivity|].
  apply (apiCallWithRetry_recovers _ 3 1000 1 _ _ _ _ Hrun); [lia | reflexivity].
Defined.

Lemma requests_are_well_formed_witness :
  let w := browser {[ "auth_token" := "mock_token" ]} in
  let c := {| baseURL := "http://localhost:8000"; url := "/api/tasks/"; http_method := GET;
              headers := <[ "Authorization" := "Bearer mock_token" ]>
                           {[ "Content-Type" := "application/json" ]};
              timeout := 15000; body := VUndefined |} in
  c ∈ sent (new_events w (api None ok_transport GetTasks w).2)
  ∧ baseURL c = API_BASE_URL None ∧ baseURL c ≠ ""
  ∧ timeout c = 15000
  ∧ headers c !! "Content-Type" = Some "application/json"
  ∧ String.prefix "/api/" (url c) = true
  ∧ (http_method c = GET ∨ http_method c = DELETE → body c = VUndefined).
Proof.
  assert (Hc : {| baseURL := "http://localhost:8000"; url := "/api/tasks/"; http_method := GET;
                  headers := <[ "Authorization" := "Bearer mock_token" ]>
                               {[ "Content-Type" := "application/json" ]};
                  timeout := 15000; body := VUndefined |}
               ∈ sent (new_events (browser {[ "auth_token" := "mock_token" ]})
                    (api None ok_transport GetTasks (browser {[ "auth_token" := "mock_token" ]})).2)).
  { vm_compute. constructor. }
  split; [exact Hc|].
  exact (requests_are_well_formed None ok_transport GetTasks _ _ Hc).
Defined.

Lemma plain_operations_pass_through_witness :
  let w := browser ∅ in
  is_plain (GetOKRTasks "42") = true
  ∧ ∃ c, new_events w (api None ok_transport (GetOKRTasks "42") w).2 = [ESend c]
         ∧ (∀ r, ok_transport (trace w) c = Ok r →
                 (api None ok_transport (GetOKRTasks "42") w).1 = Ok (data r))
         ∧ (∀ e, ok_transport (trace w) c = Throw (ThrowError e) →
                 (api None ok_transport (GetOKRTasks "42") w).1 = Throw (ThrowError e)).
Proof.
  split; [reflexivity|].
  exact (plain_operations_pass_through None ok_transport (GetOKRTasks "42") (browser ∅) eq_refl).
Defined.

Lemma createOKR_other_fields_pass_through_witness :
  let okrData : gmap string value := {[ "description" := VStr "d"; "title" := VStr "t" ]} in
  let out : gmap string value :=
    {[ "description" := VStr "d"; "name" := VStr "t"; "assigned_user_ids" := VArr [];
       "primary_user_id" := VNull; "business_unit_ids" := VArr [] ]} in
  sends_payload (createOKR None ok_transport okrData) (browser ∅) out
  ∧ ("description" ∉ ["name"; "title"; "assigned_user_ids"; "primary_user_id";
                      "business_unit_ids"])
  ∧ out !! "description" = okrData !! "description".
Proof.
  assert (Hs : sends_payload
                 (createOKR None ok_transport {[ "description" := VStr "d"; "title" := VStr "t" ]})
                 (browser ∅)
                 {[ "description" := VStr "d"; "name" := VStr "t"; "assigned_user_ids" := VArr [];
                    "primary_user_id" := VNull; "business_unit_ids" := VArr [] ]}).
  { eexists. split; vm_compute; reflexivity. }
  assert (Hk : "description" ∉ ["name"; "title"; "assigned_user_ids"; "primary_user_id";
                                "business_unit_ids"]).
  { intros H. repeat (apply elem_of_cons in H as [H|H]; [discriminate|]).
    by apply elem_of_nil in H. }
  split; [exact Hs|]. split; [exact Hk|].
  exact (createOKR_other_fields_pass_through None ok_transport _ _ _ _ Hs Hk).
Defined.

Lemma updateOKR_other_fields_pass_through_witness :
  let okrData : gmap string value := {[ "description" := VStr "d" ]} in
  let out : gmap string value :=
    {[ "description" := VStr "d"; "assigned_user_ids" := VArr [];
       "primary_user_id" := VNull; "business_unit_ids" := VArr [] ]} in
  sends_payload (updateOKR None ok_transport "7" okrData) (browser ∅) out
  ∧ ("description" ∉ ["assigned_user_ids"; "primary_user_id"; "business_unit_ids";
                      "assigned_users"; "business_units"])
  ∧ out !! "description" = okrData !! "description".
Proof.
  assert (Hs : sends_payload
                 (updateOKR None ok_transport "7" {[ "description" := VStr "d" ]})
                 (browser ∅)
                 {[ "description" := VStr "d"; "assigned_user_ids" := VArr [];
                    "primary_user_id" := VNull; "business_unit_ids" := VArr [] ]}).
  { eexists. split; vm_compute; reflexivity. }
  assert (Hk : "description" ∉ ["assigned_user_ids"; "primary_user_id"; "business_unit_ids";
                                "assigned_users"; "business_units"]).
  { intros H. repeat (apply elem_of_cons in H as [H|H]; [discriminate|]).
    by apply elem_of_nil in H. }
  split; [exact Hs|]. split; [exact Hk|].
  exact (updateOKR_other_fields_pass_through None ok_transport _ _ _ _ _ Hs Hk).
Defined.

Lemma updateOKR_without_assigned_users_witness :
  let okrData : gmap string value :=
    {[ "assigned_user_ids" := VArr [VNum 1]; "primary_user_id" := VNum 1 ]} in
  truthy (get okrData "assigned_users") = false
  ∧ ∃ out, sends_payload (updateOKR None ok_transport "7" okrData) (browser ∅) out
           ∧ out !! "assigned_user_ids" = Some (VArr [])
           ∧ out !! "primary_user_id" = Some VNull.
Proof.
  split; [reflexivity|].
  exact (updateOKR_without_assigned_users None ok_transport "7"
           {[ "assigned_user_ids" := VArr [VNum 1]; "primary_user_id" := VNum 1 ]}
           (browser ∅) eq_refl).
Defined.

Lemma updateOKR_rejects_malformed_assigned_users_witness :
  let okrData : gmap string value := {[ "assigned_users" := VStr "alice" ]} in
  okrData !! "assigned_users" = Some (VStr "alice")
  ∧ truthy (VStr "alice") = true
  ∧ ∃ msg, updateOKR None ok_transport "7" okrData (browser ∅)
           = (Throw (TypeError msg), browser ∅).
Proof.
  split; [reflexivity|]. split; [reflexivity|].
  apply (updateOKR_rejects_malformed_assigned_users None ok_transport "7"
           {[ "assigned_users" := VStr "alice" ]} (VStr "alice") (browser ∅));
    [reflexivity | reflexivity | left; intros l; discriminate].
Defined.

Lemma updateOKR_sends_split_assignment_witness :
  let entries :=
    [ VObj {[ "user_id" := VNum 1; "is_primary" := VBool false ]};
      VObj {[ "user_id" := VNum 2; "is_primary" := VBool true ]};
      VObj {[ "user_id" := VNum 3; "is_primary" := VBool true ]} ] in
  let okrData : gmap string value := {[ "assigned_users" := VArr entries ]} in
  okrData !! "assigned_users" = Some (VArr entries)
  ∧ Forall is_object entries
  ∧ ∃ out, sends_payload (updateOKR None ok_transport "7" okrData) (browser ∅) out
           ∧ out !! "assigned_user_ids" = Some (VArr [VNum 1; VNum 2; VNum 3])
           ∧ out !! "primary_user_id" = Some (VNum 2)
           ∧ out !! "assigned_users" = None.
Proof.
  assert (Hall : Forall is_object
                   [ VObj {[ "user_id" := VNum 1; "is_primary" := VBool false ]};
                     VObj {[ "user_id" := VNum 2; "is_primary" := VBool true ]};
                     VObj {[ "user_id" := VNum 3; "is_primary" := VBool true ]} ]).
  { repeat constructor; by eexists. }
  assert (Hau : ({[ "assigned_users" :=
                      VArr [ VObj {[ "user_id" := VNum 1; "is_primary" := VBool false ]};
                             VObj {[ "user_id" := VNum 2; "is_primary" := VBool true ]};
                             VObj {[ "user_id" := VNum 3; "is_primary" := VBool true ]} ] ]}
                  : gmap string value) !! "assigned_users"
                 = Some (VArr [ VObj {[ "user_id" := VNum 1; "is_primary" := VBool false ]};
                                VObj {[ "user_id" := VNum 2; "is_primary" := VBool true ]};
                                VObj {[ "user_id" := VNum 3; "is_primary" := VBool true ]} ]))
    by reflexivity.
  split; [exact Hau|]. split; [exact Hall|].
  exact (updateOKR_sends_split_assignment None ok_transport "7" _ _ (browser ∅) Hau Hall).
Defined.

Lemma login_and_logout_decide_the_header_witness :
  window (browser ∅) = Some ∅
  ∧ auth_token (handleLogout (Home_handleLogin VNull (browser ∅)).2).2 = None.
Proof.
  split; [reflexivity|].
  apply (login_and_logout_decide_the_header None ok_transport (browser ∅) ∅ VNull).
  reflexivity.
Defined.


Lemma TasksPage_checkAuth_fetches_iff_token_witness :
  let ls : gmap string string := {[ "auth_token" := "mock_token" ]} in
  window (browser ls) = Some ls
  ∧ ls !! "auth_token" = Some "mock_token"
  ∧ ∃ c, new_events (browser ls) (TasksPage_checkAuth None not_found_transport (browser ls)).2
         = [ESend c]
         ∧ http_method c = GET ∧ url c = "/api/tasks/"
         ∧ headers c !! "Authorization" = Some "Bearer mock_token".
Proof.
  split; [reflexivity|]. split; [reflexivity|].
  apply (proj2 (proj2 (TasksPage_checkAuth_fetches_iff_token None not_found_transport
                         (browser {[ "auth_token" := "mock_token" ]})
                         {[ "auth_token" := "mock_token" ]} eq_refl)) "mock_token");
    [reflexivity | discriminate].
Defined.

Lemma continued_iteration_loses_name_witness :
  let data : gmap string value := {[ "name" := VStr "Grow revenue"; "okr_id" := VNum 3 ]} in
  (@nil value ≠ [] ∨ @None (value → UI unit) = None)
  ∧ ∃ c out,
      new_events (world (fresh_page ∅))
        (world (handleContinueIteration None created_transport data [] None (fresh_page ∅)).2)
      = [ESend c]
      ∧ http_method c = POST ∧ url c = "/api/okrs/" ∧ body c = VObj out
      ∧ out !! "name" = Some VUndefined
      ∧ out !! "title" = None
      ∧ out !! "previous_iteration_id" = Some (get data "okr_id")
      ∧ out !! "status" = Some (VStr "Not Started")
      ∧ out !! "progress_percent" = Some (VNum 0)
      ∧ out !! "due_date" = Some VNull.
Proof.
  split; [by right|].
  exact (continued_iteration_loses_name None created_transport
           {[ "name" := VStr "Grow revenue"; "okr_id" := VNum 3 ]} [] None (fresh_page ∅)
           (or_intror eq_refl)).
Defined.

Lemma continued_iteration_with_users_reports_failure_witness :
  let data : gmap string value := {[ "name" := VStr "Grow revenue"; "okr_id" := VNum 3 ]} in
  let users := [ VObj {[ "user_id" := VNum 1; "is_primary" := VBool true ]} ] in
  let created := createOKR None created_transport (newOKRData data) (browser ∅) in
  users ≠ []
  ∧ created = (Ok (VObj {[ "okr_id" := VNum 9 ]}), created.2)
  ∧ handleContinueIteration None created_transport data users None (fresh_page ∅)
    = (Ok (), {| world := created.2;
                 alerts := ["Failed to create new iteration. Please try again."] |}).
Proof.
  split; [discriminate|]. split; [reflexivity|].
  apply (continued_iteration_with_users_reports_failure None created_transport
           {[ "name" := VStr "Grow revenue"; "okr_id" := VNum 3 ]}
           [ VObj {[ "user_id" := VNum 1; "is_primary" := VBool true ]} ] None (fresh_page ∅)
           (VObj {[ "okr_id" := VNum 9 ]})); [discriminate | reflexivity].
Defined.
